(** * PaymentSystem: the bank-webhook ledger, embedded and verified

    Shallow embedding of [payments/models.py], [payments/serializers.py]
    and [payments/views.py].

    - Money is [DecimalField(max_digits=15, decimal_places=2)]: a value is
      kept as its integer number of hundredths, so [145000.00] is
      [14500000].  A value fits a column when it has at most 15 digits.
    - The three tables are lists of rows in insertion order; every row has
      the automatic integer primary key [id] of a Django model.
    - ORM calls are computations in a small state-and-exception monad over
      the store; [atomic] is [transaction.atomic()].
    - A view is a function from the store (and the request) to the store
      and the HTTP response.
    - Text is a [string] with one character per code point; code points
      from 256 on have no counterpart here.
    - The views are modelled twice.  [post] and the definitions it is built
      from are the view on a database that enforces [numeric(15, 2)] on
      write, with the transaction running alone; [post_on] lets the
      database skip that check and lets the transaction read the
      organization row from an older committed store than the one it
      writes to. *)

From Stdlib Require Import ZArith NArith List String Ascii Bool Lia.
From Stdlib Require Import Permutation Sorted.
Import ListNotations.
Local Open Scope Z_scope.

(* ===================================================================== *)
(** ** Decimal columns *)

Module DecimalField.
Definition max_digits : Z := 15.
Definition decimal_places : Z := 2.

(** Hundredths that can be written with [max_digits] digits. *)
Definition fits (v : Z) : bool := Z.abs v <? 10 ^ max_digits.
End DecimalField.

(* ===================================================================== *)
(** ** models.py *)

Module Organization.
Record t := mk {
  id : Z;
  inn : string;          (* CharField(max_length=12, unique=True) *)
  balance : Z            (* DecimalField(15, 2, default=0) *)
}.
End Organization.

Module Payment.
Record t := mk {
  id : Z;
  operation_id : N;      (* UUIDField(unique=True): the 128-bit value *)
  amount : Z;
  payer_inn : string;
  document_number : string;
  document_date : Z;     (* DateTimeField: a timestamp *)
  created_at : Z;        (* auto_now_add *)
  organization : option Z  (* ForeignKey(Organization, null=True) *)
}.
End Payment.

Module BalanceLog.
Record t := mk {
  id : Z;
  organization : Z;      (* ForeignKey(Organization) *)
  amount : Z;
  new_balance : Z;
  payment : option Z;    (* ForeignKey(Payment, null=True, SET_NULL) *)
  created_at : Z
}.
End BalanceLog.

Record Store := mkStore {
  organizations : list Organization.t;
  payments : list Payment.t;
  balance_logs : list BalanceLog.t
}.

Definition empty_store : Store := mkStore [] [] [].

(** The key given to the next inserted row: one more than the largest key
    in the table. *)
Definition next_pk (ids : list Z) : Z := 1 + fold_right Z.max 0 ids.

(* ===================================================================== *)
(** ** Exceptions and the transaction monad *)

Inductive Exception :=
| IntegrityError (column : string)   (* a unique constraint is violated *)
| MultipleObjectsReturned
| DoesNotExist
| InvalidOperation.                  (* a decimal does not fit its column *)

(** A computation reads and writes the store and either returns a value or
    raises; the store it leaves behind holds the writes made so far. *)
Definition Txn (A : Type) : Type := Store -> Store * (Exception + A).

Definition ret {A} (a : A) : Txn A := fun s => (s, inr a).
Definition raise {A} (e : Exception) : Txn A := fun s => (s, inl e).
Definition bind {A B} (m : Txn A) (k : A -> Txn B) : Txn B :=
  fun s =>
    match m s with
    | (s', inr a) => k a s'
    | (s', inl e) => (s', inl e)
    end.

Notation "x <- m ;; k" := (bind m (fun x => k))
  (at level 61, m at next level, right associativity).
Notation "' pat <- m ;; k" := (bind m (fun x => match x with pat => k end))
  (at level 61, pat pattern, m at next level, right associativity).

(** [with transaction.atomic(): body]: when the body raises, every write it
    made is rolled back and the exception goes on to the caller. *)
Definition atomic {A} (body : Txn A) : Txn A :=
  fun s =>
    match body s with
    | (s', inr a) => (s', inr a)
    | (_, inl e) => (s, inl e)
    end.

(** [try: m except IntegrityError: handler]. *)
Definition catch_integrity {A} (m : Txn A) (handler : string -> Txn A) : Txn A :=
  fun s =>
    match m s with
    | (s', inl (IntegrityError c)) => handler c s'
    | r => r
    end.

(* ===================================================================== *)
(** ** The ORM calls the views make *)

Definition inn_is (i : string) (o : Organization.t) : bool :=
  String.eqb (Organization.inn o) i.

Definition operation_is (op : N) (p : Payment.t) : bool :=
  N.eqb (Payment.operation_id p) op.

(** [Organization.objects.get(inn=i)] *)
Definition Organization_get (i : string) : Txn Organization.t :=
  fun s =>
    match filter (inn_is i) (organizations s) with
    | [] => (s, inl DoesNotExist)
    | [o] => (s, inr o)
    | _ => (s, inl MultipleObjectsReturned)
    end.

(** [Organization.objects.create(inn=i, balance=b)] *)
Definition Organization_create (i : string) (b : Z) : Txn Organization.t :=
  fun s =>
    if existsb (inn_is i) (organizations s) then (s, inl (IntegrityError "inn"))
    else if negb (DecimalField.fits b) then (s, inl InvalidOperation)
    else
      let o := Organization.mk (next_pk (map Organization.id (organizations s))) i b in
      (mkStore (organizations s ++ [o]) (payments s) (balance_logs s), inr o).

(** [Organization.objects.get_or_create(inn=i, defaults={'balance': b})]:
    get; when there is none, create under a savepoint; when the create
    loses to a row that appeared meanwhile, get again. *)
Definition Organization_get_or_create (i : string) (b : Z)
  : Txn (Organization.t * bool) :=
  fun s =>
    match Organization_get i s with
    | (s1, inr o) => (s1, inr (o, false))
    | (s1, inl DoesNotExist) =>
        catch_integrity
          (o <- atomic (Organization_create i b) ;; ret (o, true))
          (fun c =>
             fun s2 =>
               match Organization_get i s2 with
               | (s3, inr o) => (s3, inr (o, false))
               | (s3, inl DoesNotExist) => (s3, inl (IntegrityError c))
               | (s3, inl e) => (s3, inl e)
               end)
          s1
    | (s1, inl e) => (s1, inl e)
    end.

(** [Payment.objects.create(...)]: the unique constraint on [operation_id]
    is checked by the insert itself. *)
Definition Payment_create (operation_id : N) (amount : Z) (payer_inn : string)
    (document_number : string) (document_date : Z)
    (organization : Organization.t) (now : Z) : Txn Payment.t :=
  fun s =>
    if existsb (operation_is operation_id) (payments s)
    then (s, inl (IntegrityError "operation_id"))
    else if negb (DecimalField.fits amount) then (s, inl InvalidOperation)
    else
      let p := Payment.mk (next_pk (map Payment.id (payments s))) operation_id
                 amount payer_inn document_number document_date now
                 (Some (Organization.id organization)) in
      (mkStore (organizations s) (payments s ++ [p]) (balance_logs s), inr p).

Definition same_org (o : Organization.t) (r : Organization.t) : bool :=
  Organization.id r =? Organization.id o.

Definition write_org (o : Organization.t) (r : Organization.t) : Organization.t :=
  if same_org o r then o else r.

(** [organization.save()]: UPDATE the row with this primary key, INSERT when
    there is no such row.  The unique constraint on [inn] is checked against
    the other rows.  The balance is refused when it does not fit the column,
    as a database that enforces [numeric(15, 2)] does; [Organization_save_on]
    below is the call on either kind of database. *)
Definition Organization_save (o : Organization.t) : Txn unit :=
  fun s =>
    if negb (DecimalField.fits (Organization.balance o)) then (s, inl InvalidOperation)
    else if existsb (fun r => inn_is (Organization.inn o) r && negb (same_org o r))
              (organizations s)
    then (s, inl (IntegrityError "inn"))
    else if existsb (same_org o) (organizations s)
    then (mkStore (map (write_org o) (organizations s)) (payments s) (balance_logs s), inr tt)
    else (mkStore (organizations s ++ [o]) (payments s) (balance_logs s), inr tt).

(** [BalanceLog.objects.create(...)] *)
Definition BalanceLog_create (organization : Organization.t) (amount new_balance : Z)
    (payment : Payment.t) (now : Z) : Txn BalanceLog.t :=
  fun s =>
    if negb (DecimalField.fits amount && DecimalField.fits new_balance)
    then (s, inl InvalidOperation)
    else
      let l := BalanceLog.mk (next_pk (map BalanceLog.id (balance_logs s)))
                 (Organization.id organization) amount new_balance
                 (Some (Payment.id payment)) now in
      (mkStore (organizations s) (payments s) (balance_logs s ++ [l]), inr l).

(* ===================================================================== *)
(** ** serializers.py: WebhookSerializer *)

(** The fields of the request body, the two strings as [CharField] trims
    them.  The amount is in hundredths: a body whose amount has more than
    two decimal places is refused by the serializer and has no counterpart
    here. *)
Module Webhook.
Record t := mk {
  operation_id : N;
  amount : Z;
  payer_inn : string;
  document_number : string;
  document_date : Z
}.
End Webhook.

(** The characters Python counts as digits: [0] to [9] and the superscripts
    U+00B2, U+00B3 and U+00B9. *)
Definition is_digit (c : ascii) : bool :=
  let n := nat_of_ascii c in
  ((48 <=? n)%nat && (n <=? 57)%nat) || (n =? 178)%nat || (n =? 179)%nat || (n =? 185)%nat.

(** [str.isdigit()]: not empty and digits only. *)
Definition isdigit (s : string) : bool :=
  negb (String.eqb s "") && forallb is_digit (list_ascii_of_string s).

(** [UUIDField()] *)
Definition valid_operation_id (u : N) : bool := (u <? 2 ^ 128)%N.

(** [DecimalField(max_digits=15, decimal_places=2, min_value=0)] *)
Definition valid_amount (a : Z) : bool := DecimalField.fits a && (0 <=? a).

(** [CharField(max_length=12, validators=[MinLengthValidator(10)])] and
    [validate_payer_inn], on the field as the serializer has trimmed it. *)
Definition valid_payer_inn (i : string) : bool :=
  (String.length i <=? 12)%nat && (10 <=? String.length i)%nat && isdigit i.

(** [CharField(max_length=50)], on the field as the serializer has trimmed
    it; a blank string is refused. *)
Definition valid_document_number (d : string) : bool :=
  negb (String.eqb d "") && (String.length d <=? 50)%nat.

Definition is_valid (data : Webhook.t) : bool :=
  valid_operation_id (Webhook.operation_id data)
  && valid_amount (Webhook.amount data)
  && valid_payer_inn (Webhook.payer_inn data)
  && valid_document_number (Webhook.document_number data).

(* ===================================================================== *)
(** ** views.py: BankWebhookView *)

Definition HTTP_200_OK : Z := 200.
Definition HTTP_400_BAD_REQUEST : Z := 400.
Definition HTTP_404_NOT_FOUND : Z := 404.
Definition HTTP_500_INTERNAL_SERVER_ERROR : Z := 500.

Record Response := mkResponse {
  status : Z;
  error : option Exception    (* the [{'error': str(e)}] body *)
}.

Definition ok_response : Response := mkResponse HTTP_200_OK None.

(** [Payment.objects.filter(operation_id=operation_id).exists()] *)
Definition already_processed (operation_id : N) (s : Store) : bool :=
  existsb (operation_is operation_id) (payments s).

(** The body of [with transaction.atomic():] in [post]; its value is the new
    balance, which the body logs. *)
Definition credit_payment (data : Webhook.t) (now : Z) : Txn Z :=
  ' (organization, created) <-
      Organization_get_or_create (Webhook.payer_inn data) 0 ;;
  payment <- Payment_create (Webhook.operation_id data) (Webhook.amount data)
               (Webhook.payer_inn data) (Webhook.document_number data)
               (Webhook.document_date data) organization now ;;
  let organization :=
    Organization.mk (Organization.id organization) (Organization.inn organization)
      (Organization.balance organization + Webhook.amount data) in
  _ <- Organization_save organization ;;
  _ <- BalanceLog_create organization (Webhook.amount data)
         (Organization.balance organization) payment now ;;
  ret (Organization.balance organization).

(** The [try: ... except Exception as e: ...] of [post]. *)
Definition process (data : Webhook.t) (now : Z) (s : Store) : Store * Response :=
  match atomic (credit_payment data now) s with
  | (s', inr _) => (s', ok_response)
  | (s', inl e) => (s', mkResponse HTTP_500_INTERNAL_SERVER_ERROR (Some e))
  end.

(** [BankWebhookView.post] where the duplicate check of line 67 read the
    committed store [seen] and the transaction then ran on the committed
    store [s]; the two differ when another request commits in between. *)
Definition post_interleaved (data : Webhook.t) (now : Z) (seen s : Store)
  : Store * Response :=
  if negb (is_valid data) then (s, mkResponse HTTP_400_BAD_REQUEST None)
  else if already_processed (Webhook.operation_id data) seen then (s, ok_response)
  else process data now s.

(** [BankWebhookView.post] with no other request in flight. *)
Definition post (data : Webhook.t) (now : Z) (s : Store) : Store * Response :=
  post_interleaved data now s s.

(* ===================================================================== *)
(** ** BankWebhookView on either database, with overlapping transactions *)

(** [checked] tells whether the database enforces [numeric(15, 2)] when a
    decimal is written (PostgreSQL does).  A database that does not
    (SQLite) stores the value and fails when the row is read back. *)

(** [Organization.objects.get(inn=i)] *)
Definition Organization_get_on (checked : bool) (i : string) : Txn Organization.t :=
  fun s =>
    match filter (inn_is i) (organizations s) with
    | [] => (s, inl DoesNotExist)
    | [o] => if checked || DecimalField.fits (Organization.balance o)
             then (s, inr o)
             else (s, inl InvalidOperation)
    | _ => (s, inl MultipleObjectsReturned)
    end.

(** [get_or_create] whose first SELECT read the committed store [seen]; the
    INSERT and the second SELECT meet the current store. *)
Definition Organization_get_or_create_on (checked : bool) (seen : Store)
    (i : string) (b : Z) : Txn (Organization.t * bool) :=
  fun s =>
    match snd (Organization_get_on checked i seen) with
    | inr o => (s, inr (o, false))
    | inl DoesNotExist =>
        catch_integrity
          (o <- atomic (Organization_create i b) ;; ret (o, true))
          (fun c =>
             fun s2 =>
               match Organization_get_on checked i s2 with
               | (s3, inr o) => (s3, inr (o, false))
               | (s3, inl DoesNotExist) => (s3, inl (IntegrityError c))
               | (s3, inl e) => (s3, inl e)
               end)
          s
    | inl e => (s, inl e)
    end.

(** [organization.save()] *)
Definition Organization_save_on (checked : bool) (o : Organization.t) : Txn unit :=
  fun s =>
    if checked && negb (DecimalField.fits (Organization.balance o))
    then (s, inl InvalidOperation)
    else if existsb (fun r => inn_is (Organization.inn o) r && negb (same_org o r))
              (organizations s)
    then (s, inl (IntegrityError "inn"))
    else if existsb (same_org o) (organizations s)
    then (mkStore (map (write_org o) (organizations s)) (payments s) (balance_logs s), inr tt)
    else (mkStore (organizations s ++ [o]) (payments s) (balance_logs s), inr tt).

(** [BalanceLog.objects.create(...)] *)
Definition BalanceLog_create_on (checked : bool) (organization : Organization.t)
    (amount new_balance : Z) (payment : Payment.t) (now : Z) : Txn BalanceLog.t :=
  fun s =>
    if checked && negb (DecimalField.fits amount && DecimalField.fits new_balance)
    then (s, inl InvalidOperation)
    else
      let l := BalanceLog.mk (next_pk (map BalanceLog.id (balance_logs s)))
                 (Organization.id organization) amount new_balance
                 (Some (Payment.id payment)) now in
      (mkStore (organizations s) (payments s) (balance_logs s ++ [l]), inr l).

(** The body of [with transaction.atomic():] where line 74 read the
    organization from [seen] and the writes of lines 79 to 96 meet the
    current store.  The amount of a validated event always fits, so
    [Payment_create] serves both kinds of database. *)
Definition credit_payment_on (checked : bool) (data : Webhook.t) (now : Z)
    (seen : Store) : Txn Z :=
  ' (organization, created) <-
      Organization_get_or_create_on checked seen (Webhook.payer_inn data) 0 ;;
  payment <- Payment_create (Webhook.operation_id data) (Webhook.amount data)
               (Webhook.payer_inn data) (Webhook.document_number data)
               (Webhook.document_date data) organization now ;;
  let organization :=
    Organization.mk (Organization.id organization) (Organization.inn organization)
      (Organization.balance organization + Webhook.amount data) in
  _ <- Organization_save_on checked organization ;;
  _ <- BalanceLog_create_on checked organization (Webhook.amount data)
         (Organization.balance organization) payment now ;;
  ret (Organization.balance organization).

Definition process_on (checked : bool) (data : Webhook.t) (now : Z) (seen s : Store)
  : Store * Response :=
  match atomic (credit_payment_on checked data now seen) s with
  | (s', inr _) => (s', ok_response)
  | (s', inl e) => (s', mkResponse HTTP_500_INTERNAL_SERVER_ERROR (Some e))
  end.

(** [BankWebhookView.post]: the duplicate check of line 67 read [checked_at],
    line 74 read the organization from [seen], the writes meet [s]. *)
Definition post_on (checked : bool) (data : Webhook.t) (now : Z)
    (checked_at seen s : Store) : Store * Response :=
  if negb (is_valid data) then (s, mkResponse HTTP_400_BAD_REQUEST None)
  else if already_processed (Webhook.operation_id data) checked_at then (s, ok_response)
  else process_on checked data now seen s.

(* ===================================================================== *)
(** ** views.py: OrganizationBalanceView *)

Inductive BalanceResponse :=
| BalanceFound (inn : string) (balance : Z)     (* 200, BalanceSerializer *)
| BalanceNotFound                               (* 404 *)
| BalanceFailed (e : Exception).                (* not caught by the view *)

Definition balance_get (inn : string) (s : Store) : BalanceResponse :=
  match Organization_get inn s with
  | (_, inr o) => BalanceFound (Organization.inn o) (Organization.balance o)
  | (_, inl DoesNotExist) => BalanceNotFound
  | (_, inl e) => BalanceFailed e
  end.

(** [OrganizationBalanceView.get] on either database. *)
Definition balance_get_on (checked : bool) (inn : string) (s : Store) : BalanceResponse :=
  match Organization_get_on checked inn s with
  | (_, inr o) => BalanceFound (Organization.inn o) (Organization.balance o)
  | (_, inl DoesNotExist) => BalanceNotFound
  | (_, inl e) => BalanceFailed e
  end.

(* ===================================================================== *)
(** ** views.py: OrganizationPaymentsView *)

Module Query.
(** The query parameters; an ordering term is a field name and whether it
    carries the [-] prefix. *)
Record t := mk {
  payer_inn : option string;
  document_number : option string;
  document_date : option Z;
  ordering : list (bool * string)
}.
End Query.

Definition ordering_fields : list string := ["amount"; "document_date"; "created_at"]%string.
Definition default_ordering : list (bool * string) := [(true, "document_date"%string)].

Definition field_value (f : string) (p : Payment.t) : Z :=
  if String.eqb f "amount" then Payment.amount p
  else if String.eqb f "document_date" then Payment.document_date p
  else if String.eqb f "created_at" then Payment.created_at p
  else 0.

(** [OrderingFilter.get_ordering]: the valid terms of the request, or the
    view's [ordering] when none is left. *)
Definition get_ordering (q : Query.t) : list (bool * string) :=
  match filter (fun t => existsb (String.eqb (snd t)) ordering_fields) (Query.ordering q) with
  | [] => default_ordering
  | terms => terms
  end.

(** Comparison of two rows under [ORDER BY terms]. *)
Fixpoint compare_rows (terms : list (bool * string)) (p q : Payment.t) : comparison :=
  match terms with
  | [] => Eq
  | (desc, f) :: rest =>
      match (if desc then Z.compare (field_value f q) (field_value f p)
             else Z.compare (field_value f p) (field_value f q)) with
      | Eq => compare_rows rest p q
      | c => c
      end
  end.

Definition row_le (terms : list (bool * string)) (p q : Payment.t) : bool :=
  match compare_rows terms p q with Gt => false | _ => true end.

Fixpoint insert_row (terms : list (bool * string)) (p : Payment.t) (l : list Payment.t)
  : list Payment.t :=
  match l with
  | [] => [p]
  | q :: l' => if row_le terms p q then p :: q :: l' else q :: insert_row terms p l'
  end.

(** [queryset.order_by] on the terms, which replaces [Meta.ordering].  SQL
    leaves the order of rows that compare equal open; here they keep their
    table order. *)
Definition order_by (terms : list (bool * string)) (l : list Payment.t) : list Payment.t :=
  fold_right (insert_row terms) [] l.

Definition opt_matches {A} (eqb : A -> A -> bool) (want : option A) (have : A) : bool :=
  match want with
  | None => true
  | Some w => eqb have w
  end.

(** [get_queryset]: [if payer_inn:] skips an empty parameter. *)
Definition get_queryset (q : Query.t) (s : Store) : list Payment.t :=
  match Query.payer_inn q with
  | Some i => if String.eqb i "" then payments s
              else filter (fun p => String.eqb (Payment.payer_inn p) i) (payments s)
  | None => payments s
  end.

(** [DjangoFilterBackend] with [filterset_fields], on the values as the
    filter form has cleaned them (see [cleaned]): exact matches; an empty
    value does not filter. *)
Definition filterset (q : Query.t) (p : Payment.t) : bool :=
  match Query.document_number q with
  | Some d => String.eqb d "" || String.eqb (Payment.document_number p) d
  | None => true
  end
  && opt_matches Z.eqb (Query.document_date q) (Payment.document_date p).

Definition matching_payments (q : Query.t) (s : Store) : list Payment.t :=
  filter (filterset q) (get_queryset q s).

(** [p] may stand before [q] in a listing with the newest document date
    first. *)
Definition newest_first (p q : Payment.t) : Prop :=
  Payment.document_date q <= Payment.document_date p.

(** The rows [OrganizationPaymentsView] lists for cleaned parameters, before
    pagination. *)
Definition list_payments (q : Query.t) (s : Store) : list Payment.t :=
  order_by (get_ordering q) (matching_payments q s).

(** The characters [str.strip()] removes: the white space below U+0100. *)
Definition is_space (c : ascii) : bool :=
  let n := nat_of_ascii c in
  ((9 <=? n)%nat && (n <=? 13)%nat) || ((28 <=? n)%nat && (n <=? 32)%nat)
  || (n =? 133)%nat || (n =? 160)%nat.

Fixpoint lstrip (l : list ascii) : list ascii :=
  match l with
  | [] => []
  | c :: l' => if is_space c then lstrip l' else l
  end.

(** [str.strip()] *)
Definition strip (s : string) : string :=
  string_of_list_ascii (rev (lstrip (rev (lstrip (list_ascii_of_string s))))).

(** The parameters as the view uses them: [payer_inn] as sent, and
    [document_number] stripped by the form of the filter. *)
Definition cleaned (q : Query.t) : Query.t :=
  Query.mk (Query.payer_inn q) (option_map strip (Query.document_number q))
    (Query.document_date q) (Query.ordering q).

(** The rows [OrganizationPaymentsView] lists for the parameters of the
    request, before pagination. *)
Definition payments_view (q : Query.t) (s : Store) : list Payment.t :=
  list_payments (cleaned q) s.

(** The payment is one the request asks for: it has the payer, the document
    number (white space around the parameter aside) and the document date
    of the parameters that are given and not empty. *)
Definition wanted (q : Query.t) (p : Payment.t) : Prop :=
  (forall i, Query.payer_inn q = Some i -> i <> ""%string -> Payment.payer_inn p = i)
  /\ (forall d, Query.document_number q = Some d -> strip d <> ""%string ->
                Payment.document_number p = strip d)
  /\ (forall t, Query.document_date q = Some t -> Payment.document_date p = t).

(* ===================================================================== *)
(** ** Reachable stores and the ledger invariant *)

(** A store reached from the empty one by requests whose transactions ran
    one after the other, whatever store the duplicate check of each had
    read. *)
Inductive reachable : Store -> Prop :=
| reachable_empty : reachable empty_store
| reachable_post data now seen s :
    reachable s -> reachable (fst (post_interleaved data now seen s)).

Fixpoint sum_Z (l : list Z) : Z :=
  match l with
  | [] => 0
  | x :: l' => x + sum_Z l'
  end.

Definition log_of_org (oid : Z) (l : BalanceLog.t) : bool :=
  BalanceLog.organization l =? oid.

(** The sum of the deltas of the organization's audit entries. *)
Definition ledger_sum (oid : Z) (s : Store) : Z :=
  sum_Z (map BalanceLog.amount (filter (log_of_org oid) (balance_logs s))).

Definition log_of_payment (pid : Z) (l : BalanceLog.t) : bool :=
  match BalanceLog.payment l with
  | Some k => k =? pid
  | None => false
  end.

Definition payments_with (op : N) (s : Store) : list Payment.t :=
  filter (operation_is op) (payments s).

Definition logs_of_operation (op : N) (s : Store) : list BalanceLog.t :=
  filter (fun l => existsb (fun p => log_of_payment (Payment.id p) l) (payments_with op s))
    (balance_logs s).

(** The balance as the balance view reports it, 0 for an unknown
    organization. *)
Definition balance_of (inn : string) (s : Store) : Z :=
  match balance_get inn s with
  | BalanceFound _ b => b
  | _ => 0
  end.

Definition owner_of (s : Store) (p : Payment.t) : option Organization.t :=
  match Payment.organization p with
  | Some oid => find (fun o => Organization.id o =? oid) (organizations s)
  | None => None
  end.

Record store_ok (s : Store) : Prop := mk_store_ok {
  ok_org_ids : NoDup (map Organization.id (organizations s));
  ok_org_inns : NoDup (map Organization.inn (organizations s));
  ok_operation_ids : NoDup (map Payment.operation_id (payments s));
  ok_balances :
    Forall (fun o => 0 <= Organization.balance o < 10 ^ 15) (organizations s);
  ok_payment_org :
    Forall (fun p => exists o, In o (organizations s)
                      /\ Payment.organization p = Some (Organization.id o)
                      /\ Organization.inn o = Payment.payer_inn p) (payments s);
  ok_log_org :
    Forall (fun l => In (BalanceLog.organization l)
                       (map Organization.id (organizations s))) (balance_logs s);
  ok_log_payment :
    Forall (fun l => exists pid, BalanceLog.payment l = Some pid
                       /\ In pid (map Payment.id (payments s))) (balance_logs s);
  ok_reconciled :
    Forall (fun o => ledger_sum (Organization.id o) s = Organization.balance o)
      (organizations s)
}.

(** The rows a successful credit of [data] to the row [o] writes. *)
Definition credited_org (data : Webhook.t) (o : Organization.t) : Organization.t :=
  Organization.mk (Organization.id o) (Organization.inn o)
    (Organization.balance o + Webhook.amount data).

Definition new_payment (data : Webhook.t) (now : Z) (o : Organization.t) (s : Store)
  : Payment.t :=
  Payment.mk (next_pk (map Payment.id (payments s))) (Webhook.operation_id data)
    (Webhook.amount data) (Webhook.payer_inn data) (Webhook.document_number data)
    (Webhook.document_date data) now (Some (Organization.id o)).

Definition new_log (data : Webhook.t) (now : Z) (o : Organization.t) (s : Store)
  : BalanceLog.t :=
  BalanceLog.mk (next_pk (map BalanceLog.id (balance_logs s)))
    (Organization.id o) (Webhook.amount data)
    (Organization.balance o + Webhook.amount data)
    (Some (next_pk (map Payment.id (payments s)))) now.

(** The store after a successful credit of [data] to the row [o]. *)
Definition credited (data : Webhook.t) (now : Z) (o : Organization.t) (s : Store) : Store :=
  mkStore (map (write_org (credited_org data o)) (organizations s))
    (payments s ++ [new_payment data now o s])
    (balance_logs s ++ [new_log data now o s]).

(** The store with one more organization row. *)
Definition with_org (o : Organization.t) (s : Store) : Store :=
  mkStore (organizations s ++ [o]) (payments s) (balance_logs s).

Definition fresh_org (inn : string) (s : Store) : Organization.t :=
  Organization.mk (next_pk (map Organization.id (organizations s))) inn 0.

(** In a store that satisfies its constraints a request is answered in one
    of four ways. *)
Inductive outcome (data : Webhook.t) (now : Z) (s : Store) : Store * Response -> Prop :=
| out_invalid :
    is_valid data = false ->
    outcome data now s (s, mkResponse HTTP_400_BAD_REQUEST None)
| out_duplicate :
    is_valid data = true ->
    already_processed (Webhook.operation_id data) s = true ->
    outcome data now s (s, ok_response)
| out_overflow o :
    is_valid data = true ->
    already_processed (Webhook.operation_id data) s = false ->
    filter (inn_is (Webhook.payer_inn data)) (organizations s) = [o] ->
    DecimalField.fits (Organization.balance o + Webhook.amount data) = false ->
    outcome data now s (s, mkResponse HTTP_500_INTERNAL_SERVER_ERROR (Some InvalidOperation))
| out_applied s1 o :
    is_valid data = true ->
    already_processed (Webhook.operation_id data) s = false ->
    (filter (inn_is (Webhook.payer_inn data)) (organizations s) = [o] /\ s1 = s
     \/ filter (inn_is (Webhook.payer_inn data)) (organizations s) = []
        /\ o = fresh_org (Webhook.payer_inn data) s /\ s1 = with_org o s) ->
    DecimalField.fits (Organization.balance o + Webhook.amount data) = true ->
    outcome data now s (credited data now o s1, ok_response).

(** The requests of a list handled one after the other. *)
Fixpoint post_all (events : list (Webhook.t * Z)) (s : Store) : Store :=
  match events with
  | [] => s
  | (data, now) :: rest => post_all rest (fst (post data now s))
  end.

Definition total_amount (events : list (Webhook.t * Z)) : Z :=
  sum_Z (map (fun e => Webhook.amount (fst e)) events).

(* ===================================================================== *)
(** ** models.py: the validators the fields declare *)

(** What [full_clean] checks on the fields of an [Organization]:
    [max_length=12] and [MinLengthValidator(10)] on [inn] (blank refused),
    [max_digits=15] and [MinValueValidator(0)] on [balance].  Neither
    [create] nor [save] runs these. *)
Definition Organization_clean_fields (o : Organization.t) : bool :=
  negb (String.eqb (Organization.inn o) "")
  && (String.length (Organization.inn o) <=? 12)%nat
  && (10 <=? String.length (Organization.inn o))%nat
  && DecimalField.fits (Organization.balance o)
  && (0 <=? Organization.balance o).

(** What [full_clean] checks on the fields of a [Payment]. *)
Definition Payment_clean_fields (p : Payment.t) : bool :=
  valid_operation_id (Payment.operation_id p)
  && DecimalField.fits (Payment.amount p)
  && (0 <=? Payment.amount p)
  && negb (String.eqb (Payment.payer_inn p) "")
  && (String.length (Payment.payer_inn p) <=? 12)%nat
  && negb (String.eqb (Payment.document_number p) "")
  && (String.length (Payment.document_number p) <=? 50)%nat.

(* ===================================================================== *)
(** ** serializers.py: PaymentSerializer *)

Module PaymentData.
Record t := mk {
  operation_id : N;
  amount : Z;
  payer_inn : string;
  document_number : string;
  document_date : Z;
  created_at : Z
}.
End PaymentData.

(** The [fields] of [PaymentSerializer.Meta]. *)
Definition PaymentSerializer (p : Payment.t) : PaymentData.t :=
  PaymentData.mk (Payment.operation_id p) (Payment.amount p) (Payment.payer_inn p)
    (Payment.document_number p) (Payment.document_date p) (Payment.created_at p).

(** The body of the response of [OrganizationPaymentsView], before
    pagination. *)
Definition payments_response (q : Query.t) (s : Store) : list PaymentData.t :=
  map PaymentSerializer (list_payments q s).

(* ===================================================================== *)
(** ** admin.py: OrganizationAdmin *)

Definition paid_to (o : Organization.t) (p : Payment.t) : bool :=
  match Payment.organization p with
  | Some k => k =? Organization.id o
  | None => false
  end.

(** [payments_count]: [obj.payments.count()], over the related name of the
    foreign key. *)
Definition payments_count (o : Organization.t) (s : Store) : nat :=
  List.length (filter (paid_to o) (payments s)).

(* ===================================================================== *)
(** ** Notions the further properties are stated with *)

(** [p] may stand before [q] when the rows are ordered by the field [f],
    descending when [desc]. *)
Definition in_order (desc : bool) (f : string) (p q : Payment.t) : Prop :=
  if desc then field_value f q <= field_value f p
  else field_value f p <= field_value f q.

(** The payer parameter of [get_queryset] lets the row through. *)
Definition payer_matches (q : Query.t) (p : Payment.t) : bool :=
  match Query.payer_inn q with
  | Some i => String.eqb i "" || String.eqb (Payment.payer_inn p) i
  | None => true
  end.

Definition paid_by (i : string) (p : Payment.t) : bool :=
  String.eqb (Payment.payer_inn p) i.

(** The query that lists the payments of one payer. *)
Definition payments_of (i : string) (ordering : list (bool * string)) : Query.t :=
  Query.mk (Some i) None None ordering.

(** What an audit entry says of its payment, and what the payment says. *)
Definition audit_of_log (l : BalanceLog.t) : option Z * option Z * Z :=
  (BalanceLog.payment l, Some (BalanceLog.organization l), BalanceLog.amount l).

Definition audit_of_payment (p : Payment.t) : option Z * option Z * Z :=
  (Some (Payment.id p), Payment.organization p, Payment.amount p).

(** The sum of the deltas of the entries of the organization of the last
    entry of [logs]: the balance that entry should record. *)
Definition running_total (logs : list BalanceLog.t) (e : BalanceLog.t) : Z :=
  sum_Z (map BalanceLog.amount
           (filter (log_of_org (BalanceLog.organization e)) (logs ++ [e]))).

(* ===================================================================== *)
(** ** Sample data *)

Definition sample : Webhook.t :=
  Webhook.mk 0xccf0a86d041b4991bcf7e2352f7b8a4a%N 14500000 "1234567890" "PAY-328" 1714251600.

Definition sample2 : Webhook.t :=
  Webhook.mk 0x1111%N 250 "1234567890" "PAY-329" 1714338000.

Definition sample_zero : Webhook.t :=
  Webhook.mk 0x2222%N 0 "1234567890" "PAY-330" 1714338001.

Definition sample_too_large : Webhook.t :=
  Webhook.mk 0x3333%N (10 ^ 15 - 1) "1234567890" "PAY-331" 1714338002.

Definition two_payments : Store :=
  fst (post sample2 102 (fst (post sample 100 empty_store))).

Definition sample3 : Webhook.t :=
  Webhook.mk 0x4444%N 1000 "1234567890" "PAY-332" 1714338003.

(** Three payments of one payer.  The first runs alone.  The transactions of
    the other two both read the organization row before either commits: the
    second commits, then the third writes. *)
Definition after_first (checked : bool) : Store * Response :=
  post_on checked sample 100 empty_store empty_store empty_store.

Definition after_second (checked : bool) : Store * Response :=
  post_on checked sample3 101 (fst (after_first checked)) (fst (after_first checked))
    (fst (after_first checked)).

Definition after_third (checked : bool) : Store * Response :=
  post_on checked sample2 102 (fst (after_first checked)) (fst (after_first checked))
    (fst (after_second checked)).

(* ===================================================================== *)
(** ** Elementary facts *)

Lemma next_pk_above (ids : list Z) (x : Z) : In x ids -> x < next_pk ids.
Proof.
  unfold next_pk. induction ids as [|y ids IH]; cbn [fold_right In]; [tauto|].
  intros [->|H]; [lia | specialize (IH H); lia].
Qed.

Lemma next_pk_fresh (ids : list Z) : ~ In (next_pk ids) ids.
Proof. intros H. apply next_pk_above in H. lia. Qed.

Lemma fits_iff (v : Z) : DecimalField.fits v = true <-> - 10 ^ 15 < v < 10 ^ 15.
Proof.
  unfold DecimalField.fits, DecimalField.max_digits. rewrite Z.ltb_lt. lia.
Qed.

Lemma valid_amount_iff (a : Z) : valid_amount a = true <-> 0 <= a < 10 ^ 15.
Proof.
  unfold valid_amount. rewrite andb_true_iff, fits_iff, Z.leb_le. lia.
Qed.

Lemma is_valid_amount (data : Webhook.t) :
  is_valid data = true -> 0 <= Webhook.amount data < 10 ^ 15.
Proof.
  unfold is_valid. rewrite !andb_true_iff. intros [[[_ H] _] _].
  now apply valid_amount_iff.
Qed.

Lemma filter_nil_existsb {A} (p : A -> bool) (l : list A) :
  filter p l = [] <-> existsb p l = false.
Proof.
  induction l as [|x l IH]; simpl; [tauto|].
  destruct (p x); simpl; [split; discriminate | exact IH].
Qed.

Lemma existsb_false_forall {A} (p : A -> bool) (l : list A) :
  existsb p l = false <-> forall x, In x l -> p x = false.
Proof.
  induction l as [|y l IH]; simpl; [tauto|].
  rewrite orb_false_iff, IH. split.
  - intros [H1 H2] x [<-|H]; auto.
  - intros H. split; auto.
Qed.

Lemma filter_single_in {A} (p : A -> bool) (l : list A) (x : A) :
  filter p l = [x] -> In x l /\ p x = true /\ forall y, In y l -> p y = true -> y = x.
Proof.
  intros H.
  assert (Hx : In x (filter p l)) by (rewrite H; now left).
  apply filter_In in Hx. destruct Hx as [Hin Hp]. repeat split; auto.
  intros y Hy Hpy.
  assert (Hy' : In y (filter p l)) by (apply filter_In; auto).
  rewrite H in Hy'. destruct Hy' as [->|[]]. reflexivity.
Qed.

(** Under a unique key, a lookup by that key finds at most one row. *)
Lemma filter_unique_key {A K} (key : A -> K) (p : A -> bool) (k : K) (l : list A) :
  (forall x, p x = true <-> key x = k) ->
  NoDup (map key l) ->
  filter p l = [] \/ exists x, filter p l = [x].
Proof.
  intros Hp. induction l as [|y l IH]; simpl; [now left|].
  intros Hnd. inversion Hnd as [|? ? Hnotin Hnd']; subst.
  destruct (p y) eqn:Hy.
  - right. exists y. f_equal.
    apply filter_nil_existsb, existsb_false_forall. intros x Hx.
    destruct (p x) eqn:Hpx; [|reflexivity].
    exfalso. apply Hnotin. apply Hp in Hy. apply Hp in Hpx.
    rewrite Hy, <- Hpx. now apply in_map.
  - exact (IH Hnd').
Qed.

Lemma inn_is_iff (i : string) (o : Organization.t) :
  inn_is i o = true <-> Organization.inn o = i.
Proof. unfold inn_is. apply String.eqb_eq. Qed.

Lemma operation_is_iff (op : N) (p : Payment.t) :
  operation_is op p = true <-> Payment.operation_id p = op.
Proof. unfold operation_is. apply N.eqb_eq. Qed.

Lemma same_org_iff (o r : Organization.t) :
  same_org o r = true <-> Organization.id r = Organization.id o.
Proof. unfold same_org. apply Z.eqb_eq. Qed.

Lemma organizations_by_inn (i : string) (s : Store) :
  store_ok s ->
  filter (inn_is i) (organizations s) = []
  \/ exists o, filter (inn_is i) (organizations s) = [o].
Proof.
  intros Hok. apply (filter_unique_key Organization.inn _ i).
  - intros x. apply inn_is_iff.
  - apply (ok_org_inns _ Hok).
Qed.

(** Writing a row whose key occurs once replaces exactly that row. *)
Lemma write_org_split (o' o : Organization.t) (l1 l2 : list Organization.t) :
  Organization.id o' = Organization.id o ->
  NoDup (map Organization.id (l1 ++ o :: l2)) ->
  map (write_org o') (l1 ++ o :: l2) = l1 ++ o' :: l2.
Proof.
  intros Hid Hnd.
  assert (Hother : forall l, (forall r, In r l -> Organization.id r <> Organization.id o) ->
                             map (write_org o') l = l).
  { induction l as [|r l IH]; simpl; [reflexivity|]. intros H.
    rewrite IH by (intros; apply H; now right). f_equal.
    unfold write_org, same_org. rewrite Hid.
    destruct (Z.eqb_spec (Organization.id r) (Organization.id o)) as [E|]; [|reflexivity].
    exfalso. apply (H r); [now left | exact E]. }
  rewrite map_app in Hnd. simpl in Hnd.
  apply NoDup_remove in Hnd. destruct Hnd as [_ Hnotin].
  rewrite map_app. simpl. rewrite !Hother.
  - unfold write_org, same_org. rewrite Hid, Z.eqb_refl. reflexivity.
  - intros r Hr E. apply Hnotin, in_or_app. right. rewrite <- E. now apply in_map.
  - intros r Hr E. apply Hnotin, in_or_app. left. rewrite <- E. now apply in_map.
Qed.

(* ===================================================================== *)
(** ** What the ORM calls return *)

Lemma get_or_create_new (i : string) (s : Store) :
  filter (inn_is i) (organizations s) = [] ->
  Organization_get_or_create i 0 s
  = (with_org (fresh_org i s) s, inr (fresh_org i s, true)).
Proof.
  intros H. unfold Organization_get_or_create, Organization_get.
  rewrite H. unfold catch_integrity, bind, atomic, Organization_create.
  apply filter_nil_existsb in H. rewrite H. reflexivity.
Qed.

Lemma get_or_create_existing (i : string) (s : Store) (o : Organization.t) :
  filter (inn_is i) (organizations s) = [o] ->
  Organization_get_or_create i 0 s = (s, inr (o, false)).
Proof.
  intros H. unfold Organization_get_or_create, Organization_get.
  rewrite H. reflexivity.
Qed.

Lemma get_or_create_many (i : string) (s : Store) (o1 o2 : Organization.t) l :
  filter (inn_is i) (organizations s) = o1 :: o2 :: l ->
  Organization_get_or_create i 0 s = (s, inl MultipleObjectsReturned).
Proof.
  intros H. unfold Organization_get_or_create, Organization_get.
  rewrite H. reflexivity.
Qed.

(** The rest of the transaction once the organization row [o] is at hand:
    it commits [credited], or stops at [save] when the new balance does not
    fit the column. *)
Lemma credit_from_org (data : Webhook.t) (now : Z) (s s1 : Store) (o : Organization.t)
    (created : bool) :
  Organization_get_or_create (Webhook.payer_inn data) 0 s = (s1, inr (o, created)) ->
  is_valid data = true ->
  already_processed (Webhook.operation_id data) s1 = false ->
  In o (organizations s1) ->
  (forall r, In r (organizations s1) ->
             Organization.inn r = Organization.inn o -> r = o) ->
  (DecimalField.fits (Organization.balance o + Webhook.amount data) = true ->
   credit_payment data now s
   = (credited data now o s1, inr (Organization.balance o + Webhook.amount data)))
  /\ (DecimalField.fits (Organization.balance o + Webhook.amount data) = false ->
      exists s', credit_payment data now s = (s', inl InvalidOperation)).
Proof.
  intros Hget Hvalid Hnew Hin Huniq.
  pose proof (is_valid_amount _ Hvalid) as Hamount.
  assert (Hfit : DecimalField.fits (Webhook.amount data) = true)
    by (apply fits_iff; lia).
  unfold already_processed in Hnew.
  assert (Hinn : existsb (fun r => inn_is (Organization.inn o) r
                                   && negb (same_org
                                              (Organization.mk (Organization.id o)
                                                 (Organization.inn o)
                                                 (Organization.balance o + Webhook.amount data)) r))
                   (organizations s1) = false).
  { apply existsb_false_forall. intros r Hr.
    destruct (inn_is (Organization.inn o) r) eqn:E; [|reflexivity].
    apply inn_is_iff in E. rewrite (Huniq r Hr E).
    unfold same_org. cbn. now rewrite Z.eqb_refl. }
  assert (Hsame : existsb (same_org
                             (Organization.mk (Organization.id o) (Organization.inn o)
                                (Organization.balance o + Webhook.amount data)))
                    (organizations s1) = true).
  { apply existsb_exists. exists o. split; [exact Hin|].
    unfold same_org. cbn. apply Z.eqb_refl. }
  split; intros Hbal; unfold credit_payment, bind at 1; rewrite Hget.
  - unfold bind, Payment_create. rewrite Hnew, Hfit. cbn [negb].
    unfold Organization_save. cbn [Organization.balance Organization.inn organizations].
    rewrite Hbal, Hinn, Hsame. cbn [negb].
    unfold BalanceLog_create. rewrite Hfit, Hbal. reflexivity.
  - unfold bind, Payment_create. rewrite Hnew, Hfit. cbn [negb].
    unfold Organization_save. cbn [Organization.balance]. rewrite Hbal. cbn [negb].
    eexists. reflexivity.
Qed.

(* ===================================================================== *)
(** ** What [post] does, case by case *)

Lemma post_invalid (data : Webhook.t) (now : Z) (s : Store) :
  is_valid data = false ->
  post data now s = (s, mkResponse HTTP_400_BAD_REQUEST None).
Proof. intros H. unfold post, post_interleaved. now rewrite H. Qed.

Lemma post_duplicate (data : Webhook.t) (now : Z) (s : Store) :
  is_valid data = true ->
  already_processed (Webhook.operation_id data) s = true ->
  post data now s = (s, ok_response).
Proof. intros H1 H2. unfold post, post_interleaved. now rewrite H1, H2. Qed.

Lemma post_new_org (data : Webhook.t) (now : Z) (s : Store) :
  is_valid data = true ->
  already_processed (Webhook.operation_id data) s = false ->
  filter (inn_is (Webhook.payer_inn data)) (organizations s) = [] ->
  post data now s
  = (credited data now (fresh_org (Webhook.payer_inn data) s)
       (with_org (fresh_org (Webhook.payer_inn data) s) s), ok_response).
Proof.
  intros Hvalid Hnew Hnone.
  pose proof (is_valid_amount _ Hvalid) as Hamount.
  destruct (credit_from_org data now s _ _ _
              (get_or_create_new _ _ Hnone) Hvalid) as [Hok _].
  - exact Hnew.
  - cbn. apply in_or_app. right. now left.
  - cbn. intros r Hr Hinn. apply in_app_or in Hr. destruct Hr as [Hr|[<-|[]]]; [|reflexivity].
    apply filter_nil_existsb in Hnone.
    rewrite existsb_false_forall in Hnone. specialize (Hnone r Hr).
    apply inn_is_iff in Hinn. congruence.
  - unfold post, post_interleaved, process, atomic.
    rewrite Hvalid, Hnew. cbn [negb]. rewrite Hok; [reflexivity|].
    apply fits_iff. cbn. lia.
Qed.

Lemma post_existing_org (data : Webhook.t) (now : Z) (s : Store) (o : Organization.t) :
  is_valid data = true ->
  already_processed (Webhook.operation_id data) s = false ->
  filter (inn_is (Webhook.payer_inn data)) (organizations s) = [o] ->
  post data now s
  = if DecimalField.fits (Organization.balance o + Webhook.amount data)
    then (credited data now o s, ok_response)
    else (s, mkResponse HTTP_500_INTERNAL_SERVER_ERROR (Some InvalidOperation)).
Proof.
  intros Hvalid Hnew Hone.
  destruct (filter_single_in _ _ _ Hone) as (Hin & Hinn & Huniq).
  apply inn_is_iff in Hinn.
  destruct (credit_from_org data now s _ _ _
              (get_or_create_existing _ _ _ Hone) Hvalid Hnew Hin) as [Hok Hbad].
  - intros r Hr E. apply Huniq; [exact Hr|]. apply inn_is_iff. congruence.
  - unfold post, post_interleaved, process, atomic.
    rewrite Hvalid, Hnew. cbn [negb].
    destruct (DecimalField.fits (Organization.balance o + Webhook.amount data)).
    + now rewrite Hok.
    + destruct Hbad as [s' ->]; reflexivity.
Qed.

Lemma post_outcome (data : Webhook.t) (now : Z) (s : Store) :
  store_ok s -> outcome data now s (post data now s).
Proof.
  intros Hok.
  destruct (is_valid data) eqn:Hvalid.
  2:{ rewrite post_invalid by assumption. now constructor. }
  destruct (already_processed (Webhook.operation_id data) s) eqn:Hnew.
  { rewrite post_duplicate by assumption. now constructor. }
  destruct (organizations_by_inn (Webhook.payer_inn data) s Hok) as [Hnone|[o Hone]].
  - rewrite post_new_org by assumption.
    eapply out_applied; auto.
    apply fits_iff. pose proof (is_valid_amount _ Hvalid). cbn. lia.
  - rewrite (post_existing_org _ _ _ o) by assumption.
    destruct (DecimalField.fits (Organization.balance o + Webhook.amount data)) eqn:Hfit.
    + eapply out_applied; eauto.
    + eapply out_overflow; eauto.
Qed.

(* ===================================================================== *)
(** ** The invariant is kept *)

Lemma NoDup_snoc {A} (l : list A) (x : A) : NoDup l -> ~ In x l -> NoDup (l ++ [x]).
Proof.
  intros Hl Hx. induction Hl as [|y l Hy Hl IH]; simpl.
  - constructor; [tauto | constructor].
  - constructor.
    + intros H. apply in_app_or in H. destruct H as [H|[->|[]]]; [tauto|].
      apply Hx. now left.
    + apply IH. intros H. apply Hx. now right.
Qed.

Lemma sum_Z_app (l1 l2 : list Z) : sum_Z (l1 ++ l2) = sum_Z l1 + sum_Z l2.
Proof. induction l1 as [|x l1 IH]; simpl; lia. Qed.

Lemma ledger_sum_snoc (oid : Z) (orgs orgs' : list Organization.t)
    (pays pays' : list Payment.t) (logs : list BalanceLog.t) (l : BalanceLog.t) :
  ledger_sum oid (mkStore orgs' pays' (logs ++ [l]))
  = ledger_sum oid (mkStore orgs pays logs)
    + (if BalanceLog.organization l =? oid then BalanceLog.amount l else 0).
Proof.
  unfold ledger_sum. cbn [balance_logs].
  rewrite filter_app, map_app, sum_Z_app. f_equal.
  cbn. unfold log_of_org. destruct (BalanceLog.organization l =? oid); cbn; lia.
Qed.

Lemma ledger_sum_unreferenced (oid : Z) (s : Store) :
  ~ In oid (map BalanceLog.organization (balance_logs s)) -> ledger_sum oid s = 0.
Proof.
  intros H. unfold ledger_sum.
  replace (filter (log_of_org oid) (balance_logs s)) with (@nil BalanceLog.t); [reflexivity|].
  symmetry. apply filter_nil_existsb, existsb_false_forall. intros l Hl.
  unfold log_of_org. apply Z.eqb_neq. intros E. apply H. rewrite <- E. now apply in_map.
Qed.

Lemma with_org_ok (i : string) (s : Store) :
  store_ok s ->
  filter (inn_is i) (organizations s) = [] ->
  store_ok (with_org (fresh_org i s) s).
Proof.
  intros [Hids Hinns Hops Hbal Hpo Hlo Hlp Hrec] Hnone.
  assert (Hfresh : ~ In (next_pk (map Organization.id (organizations s)))
                      (map BalanceLog.organization (balance_logs s))).
  { intros H. apply in_map_iff in H. destruct H as (l & E & Hl).
    rewrite Forall_forall in Hlo. specialize (Hlo l Hl). rewrite E in Hlo.
    now apply next_pk_fresh in Hlo. }
  constructor; cbn [with_org fresh_org organizations payments balance_logs].
  - rewrite map_app. apply NoDup_snoc; [assumption | apply next_pk_fresh].
  - rewrite map_app. apply NoDup_snoc; [assumption|]. cbn.
    intros H. apply in_map_iff in H. destruct H as (r & E & Hr).
    apply filter_nil_existsb in Hnone. rewrite existsb_false_forall in Hnone.
    specialize (Hnone r Hr). apply inn_is_iff in E. congruence.
  - assumption.
  - apply Forall_app. split; [assumption|]. constructor; [cbn; lia | constructor].
  - eapply Forall_impl; [|exact Hpo]. cbn. intros p (o & Ho & E1 & E2).
    exists o. split; [apply in_or_app; now left | tauto].
  - eapply Forall_impl; [|exact Hlo]. cbn. intros l Hl.
    rewrite map_app. apply in_or_app. now left.
  - assumption.
  - apply Forall_app. split.
    + eapply Forall_impl; [|exact Hrec]. intros o Ho. exact Ho.
    + constructor; [|constructor]. cbn [Organization.id Organization.balance].
      apply (ledger_sum_unreferenced _ (mkStore _ _ _)). exact Hfresh.
Qed.

Lemma credited_ok (data : Webhook.t) (now : Z) (o : Organization.t) (s : Store) :
  store_ok s ->
  In o (organizations s) ->
  Organization.inn o = Webhook.payer_inn data ->
  already_processed (Webhook.operation_id data) s = false ->
  0 <= Webhook.amount data ->
  DecimalField.fits (Organization.balance o + Webhook.amount data) = true ->
  store_ok (credited data now o s).
Proof.
  intros [Hids Hinns Hops Hbal Hpo Hlo Hlp Hrec] Hin Hinn Hnew Hamount Hfit.
  apply fits_iff in Hfit.
  destruct (in_split _ _ Hin) as (l1 & l2 & Hsplit).
  unfold credited, credited_org, new_payment, new_log. rewrite Hsplit in *.
  rewrite (write_org_split _ o) by (auto; reflexivity).
  set (o' := Organization.mk _ _ _).
  set (p := Payment.mk _ _ _ _ _ _ _ _).
  set (l := BalanceLog.mk _ _ _ _ _ _).
  assert (Eid : map Organization.id (l1 ++ o' :: l2) = map Organization.id (l1 ++ o :: l2))
    by (rewrite !map_app; reflexivity).
  assert (Einn : map Organization.inn (l1 ++ o' :: l2) = map Organization.inn (l1 ++ o :: l2))
    by (rewrite !map_app; reflexivity).
  assert (Hbo : 0 <= Organization.balance o < 10 ^ 15).
  { rewrite Forall_forall in Hbal. apply Hbal. apply in_or_app. right. now left. }
  constructor; cbn [organizations payments balance_logs].
  - now rewrite Eid.
  - now rewrite Einn.
  - rewrite map_app. apply NoDup_snoc; [assumption|]. cbn.
    intros H. apply in_map_iff in H. destruct H as (q & E & Hq).
    unfold already_processed in Hnew. rewrite existsb_false_forall in Hnew.
    specialize (Hnew q Hq). apply operation_is_iff in E. congruence.
  - apply Forall_app in Hbal. destruct Hbal as [H1 H2]. inversion H2; subst.
    apply Forall_app. split; [assumption|]. constructor; [cbn; lia | assumption].
  - apply Forall_app. split.
    + eapply Forall_impl; [|exact Hpo]. cbn. intros q (r & Hr & E1 & E2).
      apply in_app_or in Hr. destruct Hr as [Hr|[<-|Hr]].
      * exists r. split; [apply in_or_app; now left | tauto].
      * exists o'. split; [apply in_or_app; right; now left | tauto].
      * exists r. split; [apply in_or_app; right; now right | tauto].
    + constructor; [|constructor]. exists o'.
      split; [apply in_or_app; right; now left | split; [reflexivity | exact Hinn]].
  - rewrite Eid. apply Forall_app. split; [assumption|]. constructor; [|constructor].
    cbn. apply in_map. apply in_or_app. right. now left.
  - apply Forall_app. split.
    + eapply Forall_impl; [|exact Hlp]. cbn. intros k (pid & E & Hpid).
      exists pid. split; [exact E|]. rewrite map_app. apply in_or_app. now left.
    + constructor; [|constructor]. exists (Payment.id p). split; [reflexivity|].
      rewrite map_app. apply in_or_app. right. now left.
  - assert (Hothers : forall r, In r (l1 ++ l2) ->
              ledger_sum (Organization.id r)
                (mkStore (l1 ++ o' :: l2) (payments s ++ [p]) (balance_logs s ++ [l]))
              = Organization.balance r).
    { intros r Hr.
      rewrite (ledger_sum_snoc _ (l1 ++ o :: l2) _ (payments s)).
      assert (Hne : Organization.id o <> Organization.id r).
      { rewrite map_app in Hids. cbn in Hids. apply NoDup_remove_2 in Hids.
        intros E. apply Hids. rewrite <- map_app, E. now apply in_map. }
      cbn [BalanceLog.organization l].
      destruct (Z.eqb_spec (Organization.id o) (Organization.id r)); [contradiction|].
      rewrite Z.add_0_r. rewrite Forall_forall in Hrec.
      replace (mkStore (l1 ++ o :: l2) (payments s) (balance_logs s)) with s
        by (destruct s; cbn in *; congruence).
      apply Hrec. apply in_app_or in Hr. apply in_or_app.
      destruct Hr; [now left | right; now right]. }
    apply Forall_forall. intros r Hr. apply in_app_or in Hr. destruct Hr as [Hr|[<-|Hr]].
    + apply Hothers. apply in_or_app. now left.
    + rewrite (ledger_sum_snoc _ (l1 ++ o :: l2) _ (payments s)).
      cbn [BalanceLog.organization BalanceLog.amount l Organization.id Organization.balance o'].
      rewrite Z.eqb_refl.
      replace (mkStore (l1 ++ o :: l2) (payments s) (balance_logs s)) with s
        by (destruct s; cbn in *; congruence).
      rewrite Forall_forall in Hrec. rewrite (Hrec o); [reflexivity|].
      apply in_or_app. right. now left.
    + apply Hothers. apply in_or_app. now right.
Qed.

(** What is known of the row [o] and the store [s1] the credit starts from,
    whether the row was found or has just been created. *)
Lemma applied_start (data : Webhook.t) (s s1 : Store) (o : Organization.t) :
  store_ok s ->
  (filter (inn_is (Webhook.payer_inn data)) (organizations s) = [o] /\ s1 = s
   \/ filter (inn_is (Webhook.payer_inn data)) (organizations s) = []
      /\ o = fresh_org (Webhook.payer_inn data) s /\ s1 = with_org o s) ->
  store_ok s1
  /\ filter (inn_is (Webhook.payer_inn data)) (organizations s1) = [o]
  /\ payments s1 = payments s
  /\ balance_logs s1 = balance_logs s
  /\ Organization.balance o = balance_of (Webhook.payer_inn data) s.
Proof.
  intros Hok [[Hone ->]|(Hnone & -> & ->)].
  - split; [assumption|]. split; [assumption|]. do 2 (split; [reflexivity|]).
    unfold balance_of, balance_get, Organization_get. now rewrite Hone.
  - split; [now apply with_org_ok|]. split; [|do 2 (split; [reflexivity|])].
    + unfold with_org. cbn [organizations]. rewrite filter_app, Hnone.
      cbn [filter app]. unfold inn_is at 1, fresh_org at 1. cbn [Organization.inn].
      now rewrite String.eqb_refl.
    + unfold balance_of, balance_get, Organization_get. now rewrite Hnone.
Qed.

Theorem post_ok (data : Webhook.t) (now : Z) (s : Store) :
  store_ok s -> store_ok (fst (post data now s)).
Proof.
  intros Hok. pose proof (post_outcome data now s Hok) as Hout.
  destruct Hout as [| | |s1 o Hvalid Hnew Hstart Hfit]; cbn [fst]; try assumption.
  destruct (applied_start _ _ _ _ Hok Hstart) as (Hok1 & Hone & Hpay & _ & _).
  destruct (filter_single_in _ _ _ Hone) as (Hin & Hinn & _).
  apply credited_ok; auto.
  - now apply inn_is_iff.
  - unfold already_processed in *. now rewrite Hpay.
  - now apply is_valid_amount.
Qed.

Lemma empty_store_ok : store_ok empty_store.
Proof. constructor; cbn; constructor. Qed.

(** When the duplicate check read a store without the identifier and the
    transaction then meets a store that has it, the insert of the payment
    violates the unique constraint and the view answers 500. *)
Lemma post_interleaved_lost_race (data : Webhook.t) (now : Z) (seen s : Store) :
  store_ok s ->
  is_valid data = true ->
  already_processed (Webhook.operation_id data) seen = false ->
  already_processed (Webhook.operation_id data) s = true ->
  post_interleaved data now seen s
  = (s, mkResponse HTTP_500_INTERNAL_SERVER_ERROR (Some (IntegrityError "operation_id"))).
Proof.
  intros Hok Hvalid Hseen Hthere.
  unfold post_interleaved, process, atomic. rewrite Hvalid, Hseen. cbn [negb].
  unfold credit_payment, bind at 1.
  destruct (organizations_by_inn (Webhook.payer_inn data) s Hok) as [Hnone|[o Hone]].
  - rewrite get_or_create_new by assumption.
    unfold bind, Payment_create. cbn [with_org payments].
    unfold already_processed in Hthere. now rewrite Hthere.
  - rewrite (get_or_create_existing _ _ o) by assumption.
    unfold bind, Payment_create.
    unfold already_processed in Hthere. now rewrite Hthere.
Qed.

Lemma post_interleaved_store (data : Webhook.t) (now : Z) (seen s : Store) :
  store_ok s ->
  fst (post_interleaved data now seen s) = s
  \/ fst (post_interleaved data now seen s) = fst (post data now s).
Proof.
  intros Hok. unfold post, post_interleaved.
  destruct (is_valid data) eqn:Hvalid; cbn [negb]; [|now left].
  destruct (already_processed _ seen) eqn:Hseen; [now left|].
  destruct (already_processed _ s) eqn:Hthere; [|now right].
  left. pose proof (post_interleaved_lost_race data now seen s Hok Hvalid Hseen Hthere) as H.
  unfold post_interleaved in H. rewrite Hvalid, Hseen in H. cbn [negb] in H.
  now rewrite H.
Qed.

Theorem reachable_ok (s : Store) : reachable s -> store_ok s.
Proof.
  induction 1 as [|data now seen s _ IH]; [apply empty_store_ok|].
  destruct (post_interleaved_store data now seen s IH) as [-> | ->];
    [assumption | now apply post_ok].
Qed.

(* ===================================================================== *)
(** ** The committed credit, row by row *)

Lemma credited_already_processed (data : Webhook.t) (now : Z) (o : Organization.t) (s : Store) :
  already_processed (Webhook.operation_id data) (credited data now o s) = true.
Proof.
  unfold already_processed, credited. cbn [payments].
  rewrite existsb_app. cbn. unfold operation_is. cbn.
  rewrite N.eqb_refl. apply orb_true_iff. right. reflexivity.
Qed.

Lemma credited_payments_with (data : Webhook.t) (now : Z) (o : Organization.t) (s : Store) :
  already_processed (Webhook.operation_id data) s = false ->
  payments_with (Webhook.operation_id data) (credited data now o s)
  = [new_payment data now o s].
Proof.
  intros Hnew. unfold payments_with, credited. cbn [payments].
  rewrite filter_app. apply filter_nil_existsb in Hnew. rewrite Hnew.
  cbn. unfold operation_is. cbn. now rewrite N.eqb_refl.
Qed.

Lemma credited_logs_of_operation (data : Webhook.t) (now : Z) (o : Organization.t) (s : Store) :
  store_ok s ->
  already_processed (Webhook.operation_id data) s = false ->
  logs_of_operation (Webhook.operation_id data) (credited data now o s)
  = [new_log data now o s].
Proof.
  intros Hok Hnew. unfold logs_of_operation.
  rewrite credited_payments_with by assumption.
  unfold credited. cbn [balance_logs]. rewrite filter_app.
  replace (filter _ (balance_logs s)) with (@nil BalanceLog.t).
  - cbn. unfold log_of_payment. cbn. now rewrite Z.eqb_refl.
  - symmetry. apply filter_nil_existsb, existsb_false_forall. intros l Hl.
    pose proof (ok_log_payment _ Hok) as Hlp. rewrite Forall_forall in Hlp.
    destruct (Hlp l Hl) as (pid & E & Hpid).
    cbn. unfold log_of_payment. rewrite E. rewrite orb_false_r.
    apply Z.eqb_neq. intros ->. now apply next_pk_fresh in Hpid.
Qed.

Lemma credited_organizations (data : Webhook.t) (now : Z) (o : Organization.t) (s : Store) :
  store_ok s ->
  In o (organizations s) ->
  exists l1 l2,
    organizations s = l1 ++ o :: l2
    /\ organizations (credited data now o s) = l1 ++ credited_org data o :: l2.
Proof.
  intros Hok Hin. destruct (in_split _ _ Hin) as (l1 & l2 & Hsplit).
  exists l1, l2. split; [exact Hsplit|].
  unfold credited. cbn [organizations]. rewrite Hsplit.
  apply write_org_split; [reflexivity|]. rewrite <- Hsplit. apply (ok_org_ids _ Hok).
Qed.

Lemma credited_balance (data : Webhook.t) (now : Z) (o : Organization.t) (s : Store) :
  store_ok s ->
  filter (inn_is (Webhook.payer_inn data)) (organizations s) = [o] ->
  balance_get (Webhook.payer_inn data) (credited data now o s)
  = BalanceFound (Webhook.payer_inn data) (Organization.balance o + Webhook.amount data).
Proof.
  intros Hok Hone.
  destruct (filter_single_in _ _ _ Hone) as (Hin & Hinn & _).
  destruct (credited_organizations data now o s Hok Hin) as (l1 & l2 & E1 & E2).
  unfold balance_get, Organization_get. rewrite E2.
  rewrite E1, filter_app in Hone. cbn [filter] in Hone. rewrite Hinn in Hone.
  assert (H1 : filter (inn_is (Webhook.payer_inn data)) l1 = []).
  { destruct (filter _ l1); [reflexivity|]. cbn in Hone.
    injection Hone as _ Hone. destruct l; discriminate. }
  rewrite H1 in Hone. cbn [app] in Hone. injection Hone as H2.
  rewrite filter_app. cbn [filter]. rewrite H1, H2.
  unfold inn_is at 1, credited_org at 1. cbn [Organization.inn].
  fold (inn_is (Webhook.payer_inn data) o). rewrite Hinn. cbn.
  apply inn_is_iff in Hinn. now rewrite Hinn.
Qed.

(* ===================================================================== *)
(** ** Idempotence of the webhook *)

(** C1: once an operation identifier has been processed with success, a
    second valid delivery with the same identifier is answered with the same
    200 response and leaves the store as it is; the store then holds exactly
    one payment with that identifier, exactly one audit entry for it, and
    the balance of the payer has grown by the amount once. *)
Theorem post_idempotent (data : Webhook.t) (now : Z) (s s1 : Store) :
  reachable s ->
  already_processed (Webhook.operation_id data) s = false ->
  post data now s = (s1, ok_response) ->
  forall (again : Webhook.t) (later : Z),
    is_valid again = true ->
    Webhook.operation_id again = Webhook.operation_id data ->
    post again later s1 = (s1, ok_response)
    /\ snd (post again later s1) = snd (post data now s)
    /\ List.length (payments_with (Webhook.operation_id data) (fst (post again later s1))) = 1%nat
    /\ List.length (logs_of_operation (Webhook.operation_id data) (fst (post again later s1))) = 1%nat
    /\ balance_of (Webhook.payer_inn data) (fst (post again later s1))
       = balance_of (Webhook.payer_inn data) s + Webhook.amount data.
Proof.
  intros Hreach Hnew Hpost again later Hvalid' Hop.
  pose proof (reachable_ok _ Hreach) as Hok.
  pose proof (post_outcome data now s Hok) as Hout. rewrite Hpost in Hout.
  inversion Hout as [| | |s0 o Hvalid _ Hstart Hfit]; subst; try congruence.
  destruct (applied_start _ _ _ _ Hok Hstart) as (Hok0 & Hone & Hpay & Hlogs & Hbal).
  assert (Hnew0 : already_processed (Webhook.operation_id data) s0 = false)
    by (unfold already_processed in *; now rewrite Hpay).
  assert (Hsecond : post again later (credited data now o s0)
                    = (credited data now o s0, ok_response)).
  { apply post_duplicate; [assumption|]. rewrite Hop. apply credited_already_processed. }
  rewrite Hsecond, Hpost. cbn [fst snd].
  split; [reflexivity|]. split; [reflexivity|].
  rewrite credited_payments_with by assumption.
  rewrite credited_logs_of_operation by assumption.
  split; [reflexivity|]. split; [reflexivity|].
  unfold balance_of at 1. rewrite credited_balance by assumption. now rewrite Hbal.
Qed.

Lemma post_idempotent_witness :
  post sample 101 (fst (post sample 100 empty_store))
  = (fst (post sample 100 empty_store), ok_response)
  /\ balance_of "1234567890" (fst (post sample 101 (fst (post sample 100 empty_store))))
     = 14500000.
Proof.
  destruct (post_idempotent sample 100 empty_store (fst (post sample 100 empty_store))
              reachable_empty eq_refl eq_refl sample 101 eq_refl eq_refl)
    as (H1 & _ & _ & _ & H5).
  split; [exact H1 | exact H5].
Defined.

(* ===================================================================== *)
(** ** The race on the operation identifier *)

(** C2, on the code: two deliveries of [sample] pass the duplicate check on
    the empty store; the first commits; the transaction of the second then
    fails on the unique constraint of [operation_id] and the sender gets a
    500 with the error, not the 200 of a duplicate. *)
Theorem post_race_answers_500 :
  already_processed (Webhook.operation_id sample) empty_store = false
  /\ post_interleaved sample 101 empty_store (fst (post sample 100 empty_store))
     = (fst (post sample 100 empty_store),
        mkResponse HTTP_500_INTERNAL_SERVER_ERROR (Some (IntegrityError "operation_id")))
  /\ post sample 101 (fst (post sample 100 empty_store))
     = (fst (post sample 100 empty_store), ok_response).
Proof. repeat split. Qed.

(* ===================================================================== *)
(** ** Atomicity *)

(** C3: when the body of the transaction raises, whatever it had written by
    then (the store [dirty]) is dropped: the view answers 500 and the store
    is the one the attempt started from. *)
Theorem credit_all_or_nothing (data : Webhook.t) (now : Z) (s dirty : Store) (e : Exception) :
  credit_payment data now s = (dirty, inl e) ->
  process data now s = (s, mkResponse HTTP_500_INTERNAL_SERVER_ERROR (Some e))
  /\ forall seen, fst (post_interleaved data now seen s) = s.
Proof.
  intros Hfail.
  assert (Hprocess : process data now s
                     = (s, mkResponse HTTP_500_INTERNAL_SERVER_ERROR (Some e))).
  { unfold process, atomic. now rewrite Hfail. }
  split; [exact Hprocess|].
  intros seen. unfold post_interleaved.
  destruct (negb (is_valid data)); [reflexivity|].
  destruct (already_processed _ seen); [reflexivity|].
  now rewrite Hprocess.
Qed.

(** The organization is found and the payment row is written before [save]
    refuses the balance: the rollback has something to undo. *)
Example credit_too_large_dirty :
  exists dirty,
    credit_payment sample_too_large 104 (fst (post sample 100 empty_store))
    = (dirty, inl InvalidOperation)
    /\ List.length (payments dirty) = 2%nat.
Proof.
  exists (fst (credit_payment sample_too_large 104 (fst (post sample 100 empty_store)))).
  split; reflexivity.
Qed.

Lemma credit_all_or_nothing_witness :
  process sample_too_large 104 (fst (post sample 100 empty_store))
  = (fst (post sample 100 empty_store),
     mkResponse HTTP_500_INTERNAL_SERVER_ERROR (Some InvalidOperation)).
Proof.
  exact (proj1 (credit_all_or_nothing sample_too_large 104
                  (fst (post sample 100 empty_store)) _ InvalidOperation eq_refl)).
Defined.

(** A 200 or a 400 of a request that writes nothing and a failed
    transaction all leave the store alone: the store changes only when the
    whole credit commits. *)
Lemma post_changes_only_on_commit (data : Webhook.t) (now : Z) (s : Store) :
  fst (post data now s) = s
  \/ exists balance, credit_payment data now s = (fst (post data now s), inr balance).
Proof.
  unfold post, post_interleaved.
  destruct (negb (is_valid data)); [now left|].
  destruct (already_processed _ s); [now left|].
  unfold process, atomic.
  destruct (credit_payment data now s) as [s' [e|b]]; [now left|].
  right. now exists b.
Qed.

(* ===================================================================== *)
(** ** Invariants of the reachable stores *)

Lemma two_payments_reachable : reachable two_payments.
Proof.
  unfold two_payments, post. do 2 apply reachable_post. apply reachable_empty.
Qed.

(** When the transactions run one after the other, the deltas of the audit
    entries of an organization add up to its balance. *)
Lemma serial_reconciliation (s : Store) (o : Organization.t) :
  reachable s ->
  In o (organizations s) ->
  ledger_sum (Organization.id o) s = Organization.balance o.
Proof.
  intros Hreach Hin. pose proof (ok_reconciled _ (reachable_ok _ Hreach)) as H.
  rewrite Forall_forall in H. now apply H.
Qed.

(** C7: in every reachable store no balance is negative; the serializer
    lets no negative amount through and the view only adds. *)
Theorem balance_never_negative (s : Store) (o : Organization.t) :
  reachable s ->
  In o (organizations s) ->
  0 <= Organization.balance o.
Proof.
  intros Hreach Hin. pose proof (ok_balances _ (reachable_ok _ Hreach)) as H.
  rewrite Forall_forall in H. now apply H.
Qed.

Lemma balance_never_negative_witness :
  In (Organization.mk 1 "1234567890" 14500250) (organizations two_payments)
  /\ 0 <= Organization.balance (Organization.mk 1 "1234567890" 14500250).
Proof.
  split; [now left|].
  exact (balance_never_negative two_payments (Organization.mk 1 "1234567890" 14500250)
           two_payments_reachable (or_introl eq_refl)).
Defined.

Lemma find_by_id (o : Organization.t) (l : list Organization.t) :
  NoDup (map Organization.id l) ->
  In o l ->
  find (fun r => Organization.id r =? Organization.id o) l = Some o.
Proof.
  induction l as [|r l IH]; cbn [map find In]; [tauto|].
  intros Hnd [->|Hin]; [now rewrite Z.eqb_refl|].
  inversion Hnd as [|? ? Hnotin Hnd']; subst.
  destruct (Z.eqb_spec (Organization.id r) (Organization.id o)) as [E|_]; [|now apply IH].
  exfalso. apply Hnotin. rewrite E. now apply in_map.
Qed.

(** C9: every payment of a reachable store points to an organization, and
    that organization carries the payer tax identifier the payment stores. *)
Theorem payment_has_its_organization (s : Store) (p : Payment.t) :
  reachable s ->
  In p (payments s) ->
  exists o, Payment.organization p = Some (Organization.id o)
            /\ owner_of s p = Some o
            /\ Organization.inn o = Payment.payer_inn p.
Proof.
  intros Hreach Hin. pose proof (reachable_ok _ Hreach) as Hok.
  pose proof (ok_payment_org _ Hok) as H. rewrite Forall_forall in H.
  destruct (H p Hin) as (o & Ho & E1 & E2).
  exists o. split; [exact E1|]. split; [|exact E2].
  unfold owner_of. rewrite E1. apply find_by_id; [apply (ok_org_ids _ Hok) | exact Ho].
Qed.

Lemma payment_has_its_organization_witness :
  exists o, Some 1 = Some (Organization.id o)
            /\ owner_of two_payments
                 (Payment.mk 2 0x1111%N 250 "1234567890" "PAY-329" 1714338000 102 (Some 1))
               = Some o
            /\ Organization.inn o = "1234567890"%string.
Proof.
  exact (payment_has_its_organization two_payments
           (Payment.mk 2 0x1111%N 250 "1234567890" "PAY-329" 1714338000 102 (Some 1))
           two_payments_reachable (or_intror (or_introl eq_refl))).
Defined.

(* ===================================================================== *)
(** ** Lazy creation of the organization *)

Lemma write_org_others (o' : Organization.t) (l : list Organization.t) :
  (forall r, In r l -> Organization.id r <> Organization.id o') ->
  map (write_org o') l = l.
Proof.
  induction l as [|r l IH]; cbn [map]; [reflexivity|]. intros H.
  rewrite IH by (intros; apply H; now right). f_equal.
  unfold write_org, same_org.
  destruct (Z.eqb_spec (Organization.id r) (Organization.id o')) as [E|]; [|reflexivity].
  exfalso. apply (H r); [now left | exact E].
Qed.

Lemma credited_fresh_organizations (data : Webhook.t) (now : Z) (i : string) (s : Store) :
  organizations (credited data now (fresh_org i s) (with_org (fresh_org i s) s))
  = organizations s
    ++ [Organization.mk (next_pk (map Organization.id (organizations s))) i
          (Webhook.amount data)].
Proof.
  unfold credited, with_org. cbn [organizations]. rewrite map_app.
  rewrite write_org_others.
  - cbn [map]. unfold write_org, same_org, credited_org, fresh_org.
    cbn [Organization.id Organization.inn Organization.balance].
    now rewrite Z.eqb_refl.
  - intros r Hr E. unfold credited_org, fresh_org in E. cbn [Organization.id] in E.
    apply (next_pk_fresh (map Organization.id (organizations s))).
    rewrite <- E. now apply in_map.
Qed.

(** C6: a new payment whose payer tax identifier no organization has is
    always processed with success; [get_or_create] makes one organization
    row, with balance 0, and when the transaction commits the table has
    grown by exactly that row, its balance now the amount of the event. *)
Theorem lazy_organization_creation (data : Webhook.t) (now : Z) (s : Store) :
  is_valid data = true ->
  already_processed (Webhook.operation_id data) s = false ->
  existsb (inn_is (Webhook.payer_inn data)) (organizations s) = false ->
  let created := fresh_org (Webhook.payer_inn data) s in
  Organization_get_or_create (Webhook.payer_inn data) 0 s
  = (with_org created s, inr (created, true))
  /\ Organization.balance created = 0
  /\ snd (post data now s) = ok_response
  /\ organizations (fst (post data now s))
     = organizations s
       ++ [Organization.mk (Organization.id created) (Webhook.payer_inn data)
             (Webhook.amount data)]
  /\ balance_get (Webhook.payer_inn data) s = BalanceNotFound
  /\ balance_get (Webhook.payer_inn data) (fst (post data now s))
     = BalanceFound (Webhook.payer_inn data) (Webhook.amount data).
Proof.
  intros Hvalid Hnew Hnone created. apply filter_nil_existsb in Hnone.
  rewrite post_new_org by assumption. cbn [fst snd].
  split; [now apply get_or_create_new|]. split; [reflexivity|]. split; [reflexivity|].
  split; [apply credited_fresh_organizations|].
  unfold balance_get, Organization_get.
  rewrite credited_fresh_organizations, filter_app, Hnone.
  split; [reflexivity|]. cbn. unfold inn_is. cbn. now rewrite String.eqb_refl.
Qed.

Lemma lazy_organization_creation_witness :
  organizations (fst (post sample 100 empty_store))
  = [Organization.mk 1 "1234567890" 14500000].
Proof.
  exact (proj1 (proj2 (proj2 (proj2
           (lazy_organization_creation sample 100 empty_store eq_refl eq_refl eq_refl))))).
Defined.

(* ===================================================================== *)
(** ** A payment of amount zero *)

(** C10: the serializer accepts the amount 0, and a new valid event with
    that amount is processed like any other: the view answers 200, one
    payment row and one audit entry are added, the entry has delta 0 and
    records the balance of the payer, and that balance is what it was. *)
Theorem zero_amount_is_processed (data : Webhook.t) (now : Z) (s : Store) :
  reachable s ->
  is_valid data = true ->
  Webhook.amount data = 0 ->
  already_processed (Webhook.operation_id data) s = false ->
  valid_amount 0 = true
  /\ snd (post data now s) = ok_response
  /\ exists (p : Payment.t) (l : BalanceLog.t),
       payments (fst (post data now s)) = payments s ++ [p]
       /\ Payment.operation_id p = Webhook.operation_id data
       /\ Payment.amount p = 0
       /\ balance_logs (fst (post data now s)) = balance_logs s ++ [l]
       /\ BalanceLog.payment l = Some (Payment.id p)
       /\ BalanceLog.amount l = 0
       /\ BalanceLog.new_balance l
          = balance_of (Webhook.payer_inn data) (fst (post data now s))
       /\ balance_of (Webhook.payer_inn data) (fst (post data now s))
          = balance_of (Webhook.payer_inn data) s.
Proof.
  intros Hreach Hvalid Hzero Hnew. split; [reflexivity|].
  pose proof (reachable_ok _ Hreach) as Hok.
  pose proof (post_outcome data now s Hok) as Hout.
  destruct Hout as [Hbad|_ Hdup|o _ _ Hone Hfit|s1 o _ _ Hstart Hfit]; try congruence.
  - exfalso. destruct (filter_single_in _ _ _ Hone) as (Hin & _ & _).
    pose proof (ok_balances _ Hok) as Hbal. rewrite Forall_forall in Hbal.
    specialize (Hbal o Hin).
    assert (DecimalField.fits (Organization.balance o + Webhook.amount data) = true)
      by (apply fits_iff; lia).
    congruence.
  - destruct (applied_start _ _ _ _ Hok Hstart) as (Hok1 & Hone & Hpay & Hlogs & Hbal).
    cbn [fst snd]. split; [reflexivity|].
    exists (new_payment data now o s1), (new_log data now o s1).
    unfold balance_of at 1 2. rewrite credited_balance by assumption.
    unfold credited. cbn [payments balance_logs]. rewrite Hpay, Hlogs.
    cbn [new_payment new_log Payment.operation_id Payment.amount Payment.id
         BalanceLog.payment BalanceLog.amount BalanceLog.new_balance].
    repeat split; try assumption; try reflexivity. lia.
Qed.

Lemma zero_amount_is_processed_witness :
  snd (post sample_zero 105 two_payments) = ok_response
  /\ balance_of "1234567890" (fst (post sample_zero 105 two_payments)) = 14500250.
Proof.
  destruct (zero_amount_is_processed sample_zero 105 two_payments
              two_payments_reachable eq_refl eq_refl eq_refl)
    as (_ & H & p & l & _ & _ & _ & _ & _ & _ & _ & Hbal).
  split; [exact H | exact Hbal].
Defined.

(* ===================================================================== *)
(** ** The payment listing *)

Lemma insert_row_perm (terms : list (bool * string)) (p : Payment.t) (l : list Payment.t) :
  Permutation (insert_row terms p l) (p :: l).
Proof.
  induction l as [|q l IH]; cbn [insert_row]; [reflexivity|].
  destruct (row_le terms p q); [reflexivity|].
  rewrite IH. apply perm_swap.
Qed.

Lemma order_by_perm (terms : list (bool * string)) (l : list Payment.t) :
  Permutation (order_by terms l) l.
Proof.
  unfold order_by. induction l as [|p l IH]; cbn [fold_right]; [reflexivity|].
  rewrite insert_row_perm. now constructor.
Qed.

Lemma row_le_default (p q : Payment.t) :
  row_le default_ordering p q = true <-> newest_first p q.
Proof.
  unfold row_le, default_ordering, newest_first, compare_rows, field_value. cbn.
  destruct (Z.compare_spec (Payment.document_date q) (Payment.document_date p));
    split; intros; try reflexivity; try discriminate; lia.
Qed.

Lemma insert_row_sorted (p : Payment.t) (l : list Payment.t) :
  Sorted newest_first l -> Sorted newest_first (insert_row default_ordering p l).
Proof.
  induction 1 as [|q l Hl IH Hq]; cbn [insert_row]; [repeat constructor|].
  destruct (row_le default_ordering p q) eqn:Hle.
  - apply row_le_default in Hle. repeat constructor; assumption.
  - assert (Hqp : newest_first q p).
    { unfold newest_first.
      destruct (Z.le_gt_cases (Payment.document_date q) (Payment.document_date p)) as [H|H].
      - apply row_le_default in H. congruence.
      - lia. }
    constructor; [exact IH|].
    destruct l as [|r l]; cbn [insert_row]; [now constructor|].
    destruct (row_le default_ordering p r); constructor; [exact Hqp|].
    now inversion Hq.
Qed.

Lemma order_by_default_sorted (l : list Payment.t) :
  Sorted newest_first (order_by default_ordering l).
Proof.
  unfold order_by. induction l as [|p l IH]; cbn [fold_right]; [constructor|].
  now apply insert_row_sorted.
Qed.

Lemma newest_first_trans : Relations_1.Transitive newest_first.
Proof. intros p q r. unfold newest_first. lia. Qed.


Example list_payments_default_sample :
  map Payment.document_date (list_payments (Query.mk None None None []) two_payments)
  = [1714338000; 1714251600]
  /\ map Payment.created_at (list_payments (Query.mk None None None []) two_payments)
     = [102; 100].
Proof. split; reflexivity. Qed.

(* ===================================================================== *)
(** ** Payments handled one after the other *)

Lemma post_applied (data : Webhook.t) (now : Z) (s : Store) :
  store_ok s ->
  is_valid data = true ->
  already_processed (Webhook.operation_id data) s = false ->
  DecimalField.fits (balance_of (Webhook.payer_inn data) s + Webhook.amount data) = true ->
  snd (post data now s) = ok_response
  /\ balance_of (Webhook.payer_inn data) (fst (post data now s))
     = balance_of (Webhook.payer_inn data) s + Webhook.amount data
  /\ List.length (payments (fst (post data now s))) = S (List.length (payments s))
  /\ List.length (balance_logs (fst (post data now s))) = S (List.length (balance_logs s))
  /\ forall op, op <> Webhook.operation_id data ->
       already_processed op (fst (post data now s)) = already_processed op s.
Proof.
  intros Hok Hvalid Hnew Hfits.
  pose proof (post_outcome data now s Hok) as Hout.
  destruct Hout as [Hbad|_ Hdup|o _ _ Hone Hfit|s1 o _ _ Hstart Hfit]; try congruence.
  - exfalso. unfold balance_of, balance_get, Organization_get in Hfits.
    rewrite Hone in Hfits. congruence.
  - destruct (applied_start _ _ _ _ Hok Hstart) as (Hok1 & Hone & Hpay & Hlogs & Hbal).
    cbn [fst snd]. split; [reflexivity|].
    unfold balance_of at 1. rewrite credited_balance by assumption.
    unfold credited, already_processed. cbn [payments balance_logs].
    rewrite Hpay, Hlogs, Hbal, !length_app. cbn [List.length].
    repeat split; try lia.
    intros op Hop. rewrite existsb_app. cbn. unfold operation_is at 2. cbn.
    destruct (N.eqb_spec (Webhook.operation_id data) op); [congruence|].
    now rewrite !orb_false_r.
Qed.

(** Distinct new payments of one payer, handled one after the other, all
    succeed and add up, as long as the total fits the balance column. *)
Theorem serial_payments_add_up (inn : string) (events : list (Webhook.t * Z)) (s : Store) :
  store_ok s ->
  Forall (fun e => is_valid (fst e) = true /\ Webhook.payer_inn (fst e) = inn
                   /\ already_processed (Webhook.operation_id (fst e)) s = false) events ->
  NoDup (map (fun e => Webhook.operation_id (fst e)) events) ->
  balance_of inn s + total_amount events < 10 ^ 15 ->
  0 <= balance_of inn s ->
  balance_of inn (post_all events s) = balance_of inn s + total_amount events
  /\ List.length (payments (post_all events s))
     = (List.length (payments s) + List.length events)%nat
  /\ List.length (balance_logs (post_all events s))
     = (List.length (balance_logs s) + List.length events)%nat.
Proof.
  intros Hok Hall. revert s Hok Hall.
  induction events as [|[data now] rest IH]; intros s Hok Hall Hnd Hsum Hpos.
  - unfold total_amount. cbn. repeat split; lia.
  - inversion Hall as [|? ? (Hvalid & Hinn & Hnew) Hrest]; subst. cbn [fst] in *.
    inversion Hnd as [|? ? Hnotin Hnd']; subst.
    unfold total_amount in *. cbn [map sum_Z fst post_all List.length] in *.
    pose proof (is_valid_amount _ Hvalid) as Hamount.
    assert (Hrest_pos : 0 <= sum_Z (map (fun e => Webhook.amount (fst e)) rest)).
    { clear -Hrest. induction Hrest as [|e l (Hv & _) _ IHl]; cbn; [lia|].
      pose proof (is_valid_amount _ Hv). lia. }
    destruct (post_applied data now s Hok Hvalid Hnew) as (_ & Hb & Hp & Hl & Hkeep).
    { apply fits_iff. lia. }
    destruct (IH (fst (post data now s))) as (IHb & IHp & IHl).
    + now apply post_ok.
    + rewrite Forall_forall in Hrest. apply Forall_forall. intros e He.
      destruct (Hrest e He) as (Hv & Hi & Hn). repeat split; auto.
      rewrite Hkeep; [exact Hn|]. intros E. apply Hnotin. rewrite <- E.
      now apply (in_map (fun e => Webhook.operation_id (fst e))).
    + exact Hnd'.
    + rewrite Hb. lia.
    + rewrite Hb. lia.
    + rewrite IHb, IHp, IHl, Hb, Hp, Hl. repeat split; lia.
Qed.

(* ===================================================================== *)
(** ** The payment listing under any filter and ordering *)

Lemma get_queryset_filter (q : Query.t) (s : Store) :
  get_queryset q s = filter (payer_matches q) (payments s).
Proof.
  unfold get_queryset, payer_matches. destruct (Query.payer_inn q) as [i|].
  - destruct (String.eqb i "").
    + cbn [orb]. symmetry. apply forallb_filter_id. now apply forallb_forall.
    + reflexivity.
  - symmetry. apply forallb_filter_id. now apply forallb_forall.
Qed.


Lemma compare_rows_antisym (terms : list (bool * string)) (p q : Payment.t) :
  compare_rows terms q p = CompOpp (compare_rows terms p q).
Proof.
  induction terms as [|[desc f] rest IH]; cbn [compare_rows]; [reflexivity|].
  destruct desc.
  - rewrite (Z.compare_antisym (field_value f q) (field_value f p)).
    destruct (field_value f q ?= field_value f p); cbn [CompOpp]; auto.
  - rewrite (Z.compare_antisym (field_value f p) (field_value f q)).
    destruct (field_value f p ?= field_value f q); cbn [CompOpp]; auto.
Qed.

Lemma row_le_total (terms : list (bool * string)) (p q : Payment.t) :
  row_le terms p q = false -> row_le terms q p = true.
Proof.
  unfold row_le. rewrite (compare_rows_antisym terms p q).
  destruct (compare_rows terms p q); cbn; congruence.
Qed.

Lemma row_le_trans (terms : list (bool * string)) (p q r : Payment.t) :
  row_le terms p q = true -> row_le terms q r = true -> row_le terms p r = true.
Proof.
  unfold row_le. induction terms as [|[desc f] rest IH]; cbn [compare_rows]; [reflexivity|].
  destruct desc.
  - destruct (Z.compare_spec (field_value f q) (field_value f p)) as [E1|L1|G1];
      destruct (Z.compare_spec (field_value f r) (field_value f q)) as [E2|L2|G2];
      destruct (Z.compare_spec (field_value f r) (field_value f p)) as [E3|L3|G3];
      try lia; try discriminate; auto.
  - destruct (Z.compare_spec (field_value f p) (field_value f q)) as [E1|L1|G1];
      destruct (Z.compare_spec (field_value f q) (field_value f r)) as [E2|L2|G2];
      destruct (Z.compare_spec (field_value f p) (field_value f r)) as [E3|L3|G3];
      try lia; try discriminate; auto.
Qed.

Lemma insert_row_sorted_any (terms : list (bool * string)) (p : Payment.t)
    (l : list Payment.t) :
  Sorted (fun a b => row_le terms a b = true) l ->
  Sorted (fun a b => row_le terms a b = true) (insert_row terms p l).
Proof.
  induction 1 as [|q l Hl IH Hq]; cbn [insert_row]; [repeat constructor|].
  destruct (row_le terms p q) eqn:Hle.
  - repeat constructor; assumption.
  - apply row_le_total in Hle. constructor; [exact IH|].
    destruct l as [|r l]; cbn [insert_row]; [now constructor|].
    destruct (row_le terms p r); constructor; [exact Hle|].
    now inversion Hq.
Qed.

Lemma order_by_sorted (terms : list (bool * string)) (l : list Payment.t) :
  StronglySorted (fun a b => row_le terms a b = true) (order_by terms l).
Proof.
  apply Sorted_StronglySorted.
  - intros a b c. apply row_le_trans.
  - unfold order_by. induction l as [|p l IH]; cbn [fold_right]; [constructor|].
    now apply insert_row_sorted_any.
Qed.

Lemma StronglySorted_weaken {A} (R R' : A -> A -> Prop) (l : list A) :
  (forall a b, R a b -> R' a b) -> StronglySorted R l -> StronglySorted R' l.
Proof.
  intros Himp. induction 1 as [|a l Hl IH Ha]; constructor; [exact IH|].
  eapply Forall_impl; [|exact Ha]. intros b. apply Himp.
Qed.

Lemma row_le_first (desc : bool) (f : string) (rest : list (bool * string))
    (p q : Payment.t) :
  row_le ((desc, f) :: rest) p q = true -> in_order desc f p q.
Proof.
  unfold row_le, in_order. cbn [compare_rows]. destruct desc.
  - destruct (Z.compare_spec (field_value f q) (field_value f p)); intros;
      first [lia | discriminate].
  - destruct (Z.compare_spec (field_value f p) (field_value f q)); intros;
      first [lia | discriminate].
Qed.

(** When the first ordering term of the request names one of the
    [ordering_fields], the listing is ordered by that field, descending when
    the term carries the [-] prefix and ascending otherwise. *)
Theorem list_payments_ordered_by_first_term (q : Query.t) (s : Store)
    (desc : bool) (f : string) (more : list (bool * string)) :
  Query.ordering q = (desc, f) :: more ->
  In f ordering_fields ->
  StronglySorted (in_order desc f) (list_payments q s).
Proof.
  intros Hq Hf. unfold list_payments, get_ordering. rewrite Hq. cbn [filter snd].
  assert (Hvalid : existsb (String.eqb f) ordering_fields = true).
  { apply existsb_exists. exists f. split; [exact Hf | apply String.eqb_refl]. }
  rewrite Hvalid.
  eapply StronglySorted_weaken; [|apply order_by_sorted].
  intros a b. apply row_le_first.
Qed.

Lemma list_payments_ordered_by_first_term_witness :
  StronglySorted (in_order false "amount")
    (list_payments (Query.mk None None None [(false, "amount"%string)]) two_payments).
Proof.
  apply (list_payments_ordered_by_first_term
           (Query.mk None None None [(false, "amount"%string)]) two_payments
           false "amount" [] eq_refl).
  now left.
Defined.

(** Ordering terms that name no field of [ordering_fields] are dropped; when
    none is left the listing is the default one, newest document date
    first. *)
Theorem list_payments_ignores_unknown_fields (q : Query.t) (s : Store) :
  (forall t, In t (Query.ordering q) -> ~ In (snd t) ordering_fields) ->
  list_payments q s = order_by default_ordering (matching_payments q s)
  /\ StronglySorted newest_first (list_payments q s).
Proof.
  intros Hbad.
  assert (Hnone : filter (fun t => existsb (String.eqb (snd t)) ordering_fields)
                    (Query.ordering q) = []).
  { apply filter_nil_existsb, existsb_false_forall. intros t Ht.
    destruct (existsb (String.eqb (snd t)) ordering_fields) eqn:E; [|reflexivity].
    exfalso. apply existsb_exists in E. destruct E as (g & Hg & E).
    apply String.eqb_eq in E. apply (Hbad t Ht). now rewrite E. }
  unfold list_payments, get_ordering. rewrite Hnone. split; [reflexivity|].
  apply Sorted_StronglySorted; [exact newest_first_trans | apply order_by_default_sorted].
Qed.

Lemma list_payments_ignores_unknown_fields_witness :
  map Payment.id
    (list_payments (Query.mk None None None [(false, "payer_inn"%string)]) two_payments)
  = [2; 1].
Proof.
  destruct (list_payments_ignores_unknown_fields
              (Query.mk None None None [(false, "payer_inn"%string)]) two_payments)
    as [H _].
  - intros t [<-|[]]. cbn. intros [H|[H|[H|[]]]]; discriminate.
  - rewrite H. reflexivity.
Defined.

(* ===================================================================== *)
(** ** One request, seen from the store *)

(** A request, interleaved or not, leaves a consistent store as it is or
    commits one credit. *)
Lemma post_interleaved_cases (data : Webhook.t) (now : Z) (seen s : Store) :
  store_ok s ->
  fst (post_interleaved data now seen s) = s
  \/ exists s1 o,
       is_valid data = true
       /\ already_processed (Webhook.operation_id data) s = false
       /\ (filter (inn_is (Webhook.payer_inn data)) (organizations s) = [o] /\ s1 = s
           \/ filter (inn_is (Webhook.payer_inn data)) (organizations s) = []
              /\ o = fresh_org (Webhook.payer_inn data) s /\ s1 = with_org o s)
       /\ DecimalField.fits (Organization.balance o + Webhook.amount data) = true
       /\ fst (post_interleaved data now seen s) = credited data now o s1.
Proof.
  intros Hok.
  destruct (post_interleaved_store data now seen s Hok) as [E|E]; [now left|].
  rewrite E. pose proof (post_outcome data now s Hok) as Hout.
  destruct Hout as [| | |s1 o Hvalid Hnew Hstart Hfit]; cbn [fst]; try (now left).
  right. exists s1, o. repeat split; assumption.
Qed.

(** Induction over the reachable stores, one write at a time: the row of a
    new organization, then the credit of a payment to a row at hand. *)
Lemma reachable_invariant (P : Store -> Prop) :
  P empty_store ->
  (forall data s,
      store_ok s -> P s -> is_valid data = true ->
      filter (inn_is (Webhook.payer_inn data)) (organizations s) = [] ->
      P (with_org (fresh_org (Webhook.payer_inn data) s) s)) ->
  (forall data now s o,
      store_ok s -> P s -> is_valid data = true ->
      already_processed (Webhook.operation_id data) s = false ->
      filter (inn_is (Webhook.payer_inn data)) (organizations s) = [o] ->
      DecimalField.fits (Organization.balance o + Webhook.amount data) = true ->
      P (credited data now o s)) ->
  forall s, reachable s -> P s.
Proof.
  intros Hempty Hcreate Hcredit s Hreach.
  induction Hreach as [|data now seen s Hreach IH]; [exact Hempty|].
  pose proof (reachable_ok _ Hreach) as Hok.
  destruct (post_interleaved_cases data now seen s Hok)
    as [-> | (s1 & o & Hvalid & Hnew & Hstart & Hfit & ->)]; [exact IH|].
  destruct (applied_start _ _ _ _ Hok Hstart) as (Hok1 & Hone & Hpay & _ & _).
  apply Hcredit; auto.
  - destruct Hstart as [[_ ->]|(Hnone & -> & ->)]; [exact IH | now apply Hcreate].
  - unfold already_processed in *. now rewrite Hpay.
Qed.

Lemma NoDup_map_inj {A B} (f : A -> B) (l : list A) (x y : A) :
  NoDup (map f l) -> In x l -> In y l -> f x = f y -> x = y.
Proof.
  induction l as [|a l IH]; cbn [map In]; [tauto|].
  intros Hnd Hx Hy E. inversion Hnd as [|? ? Hnotin Hnd']; subst.
  destruct Hx as [->|Hx], Hy as [->|Hy]; auto.
  - exfalso. apply Hnotin. rewrite E. now apply in_map.
  - exfalso. apply Hnotin. rewrite <- E. now apply in_map.
Qed.

(** The rows of the organizations table after a credit to [o]: the row of
    [o] rewritten, and the rows of the other payers as they were. *)
Lemma credited_rows (data : Webhook.t) (now : Z) (o : Organization.t) (s : Store) :
  store_ok s ->
  filter (inn_is (Webhook.payer_inn data)) (organizations s) = [o] ->
  forall r, In r (organizations (credited data now o s)) <->
            r = credited_org data o
            \/ (In r (organizations s)
                /\ Organization.inn r <> Webhook.payer_inn data).
Proof.
  intros Hok Hone r.
  destruct (filter_single_in _ _ _ Hone) as (Hin & Hinn & Huniq).
  destruct (credited_organizations data now o s Hok Hin) as (l1 & l2 & E1 & E2).
  pose proof (ok_org_ids _ Hok) as Hnd. rewrite E1, map_app in Hnd. cbn [map] in Hnd.
  apply NoDup_remove_2 in Hnd. rewrite <- map_app in Hnd.
  assert (Hrest : forall x, In x (l1 ++ l2) ->
                    In x (organizations s) /\ Organization.inn x <> Webhook.payer_inn data).
  { intros x Hx.
    assert (Hxs : In x (organizations s)).
    { rewrite E1. apply in_app_or in Hx. apply in_or_app.
      destruct Hx; [now left | right; now right]. }
    split; [exact Hxs|]. intros E. apply Hnd.
    rewrite <- (Huniq x Hxs ((proj2 (inn_is_iff _ _)) E)). now apply in_map. }
  rewrite E2. split.
  - intros Hr. apply in_app_or in Hr. destruct Hr as [Hr|[<-|Hr]].
    + right. apply Hrest, in_or_app. now left.
    + now left.
    + right. apply Hrest, in_or_app. now right.
  - intros [->|[Hr Hne]]; [apply in_or_app; right; now left|].
    rewrite E1 in Hr. apply in_app_or in Hr. apply in_or_app.
    destruct Hr as [Hr|[<-|Hr]]; [now left | | right; now right].
    apply inn_is_iff in Hinn. contradiction.
Qed.

Lemma credited_other_payer (data : Webhook.t) (now : Z) (o : Organization.t) (s : Store)
    (j : string) :
  store_ok s ->
  filter (inn_is (Webhook.payer_inn data)) (organizations s) = [o] ->
  j <> Webhook.payer_inn data ->
  filter (inn_is j) (organizations (credited data now o s))
  = filter (inn_is j) (organizations s).
Proof.
  intros Hok Hone Hj.
  destruct (filter_single_in _ _ _ Hone) as (Hin & Hinn & _).
  destruct (credited_organizations data now o s Hok Hin) as (l1 & l2 & E1 & E2).
  rewrite E1, E2, !filter_app. cbn [filter].
  apply inn_is_iff in Hinn.
  assert (H1 : inn_is j o = false).
  { unfold inn_is. apply String.eqb_neq. congruence. }
  assert (H2 : inn_is j (credited_org data o) = false) by exact H1.
  now rewrite H1, H2.
Qed.

Lemma balance_get_same_rows (j : string) (s s' : Store) :
  filter (inn_is j) (organizations s') = filter (inn_is j) (organizations s) ->
  balance_get j s' = balance_get j s.
Proof.
  intros E. unfold balance_get, Organization_get. rewrite E.
  destruct (filter (inn_is j) (organizations s)) as [|a [|b l]]; reflexivity.
Qed.

Lemma other_balances_kept (data : Webhook.t) (now : Z) (seen s : Store) (j : string) :
  store_ok s ->
  j <> Webhook.payer_inn data ->
  balance_get j (fst (post_interleaved data now seen s)) = balance_get j s.
Proof.
  intros Hok Hj.
  destruct (post_interleaved_cases data now seen s Hok)
    as [-> | (s1 & o & Hvalid & Hnew & Hstart & Hfit & ->)]; [reflexivity|].
  destruct (applied_start _ _ _ _ Hok Hstart) as (Hok1 & Hone & _ & _ & _).
  apply balance_get_same_rows.
  rewrite (credited_other_payer data now o s1 j Hok1 Hone Hj).
  destruct Hstart as [[_ ->]|(_ & -> & ->)]; [reflexivity|].
  unfold with_org. cbn [organizations]. rewrite filter_app. cbn [filter].
  assert (H1 : inn_is j (fresh_org (Webhook.payer_inn data) s) = false).
  { unfold inn_is, fresh_org. cbn [Organization.inn]. apply String.eqb_neq. congruence. }
  rewrite H1, app_nil_r. reflexivity.
Qed.

(** A request for one payer leaves the answer of the balance view for every
    other tax identifier as it was, whatever the request does. *)
Theorem post_leaves_other_balances (data : Webhook.t) (now : Z) (seen s : Store)
    (j : string) :
  reachable s ->
  j <> Webhook.payer_inn data ->
  balance_get j (fst (post_interleaved data now seen s)) = balance_get j s.
Proof.
  intros Hreach Hj. apply other_balances_kept; [|exact Hj]. now apply reachable_ok.
Qed.

Lemma post_leaves_other_balances_witness :
  balance_get "1234567890" (fst (post (Webhook.mk 7%N 100 "9876543210" "PAY-1" 5) 110 two_payments))
  = BalanceFound "1234567890" 14500250.
Proof.
  unfold post.
  rewrite (post_leaves_other_balances (Webhook.mk 7%N 100 "9876543210" "PAY-1" 5) 110
             two_payments two_payments "1234567890" two_payments_reachable).
  - reflexivity.
  - discriminate.
Defined.



(** Exactly once, also under races: whatever stores the duplicate checks
    had read, no two payment rows of a reachable store carry the same
    operation identifier, and no two organizations the same tax
    identifier. *)
Theorem operation_id_stored_once (s : Store) :
  reachable s ->
  (forall p1 p2, In p1 (payments s) -> In p2 (payments s) ->
                 Payment.operation_id p1 = Payment.operation_id p2 -> p1 = p2)
  /\ (forall o1 o2, In o1 (organizations s) -> In o2 (organizations s) ->
                    Organization.inn o1 = Organization.inn o2 -> o1 = o2).
Proof.
  intros Hreach. pose proof (reachable_ok _ Hreach) as Hok. split.
  - intros p1 p2. apply NoDup_map_inj, (ok_operation_ids _ Hok).
  - intros o1 o2. apply NoDup_map_inj, (ok_org_inns _ Hok).
Qed.

Lemma operation_id_stored_once_witness :
  In (Payment.mk 2 0x1111%N 250 "1234567890" "PAY-329" 1714338000 102 (Some 1))
    (payments two_payments)
  /\ Payment.mk 2 0x1111%N 250 "1234567890" "PAY-329" 1714338000 102 (Some 1)
     = Payment.mk 2 0x1111%N 250 "1234567890" "PAY-329" 1714338000 102 (Some 1).
Proof.
  split; [right; now left|].
  apply (proj1 (operation_id_stored_once two_payments two_payments_reachable));
    [right; now left | right; now left | reflexivity].
Defined.


(* ===================================================================== *)
(** ** The audit trail *)

Lemma reachable_audit_mirror (s : Store) :
  reachable s ->
  map audit_of_log (balance_logs s) = map audit_of_payment (payments s).
Proof.
  apply (reachable_invariant
           (fun s => map audit_of_log (balance_logs s) = map audit_of_payment (payments s))).
  - reflexivity.
  - intros data s0 _ IH _ _. exact IH.
  - intros data now s0 o _ IH _ _ _ _.
    unfold credited. cbn [payments balance_logs]. rewrite !map_app, IH. reflexivity.
Qed.


Lemma snoc_split {A} (l l1 l2 : list A) (x e : A) :
  l ++ [x] = l1 ++ e :: l2 ->
  (l2 = [] /\ l1 = l /\ e = x) \/ (exists l2', l2 = l2' ++ [x] /\ l = l1 ++ e :: l2').
Proof.
  destruct l2 as [|y l2] using rev_ind.
  - intros E. left. apply app_inj_tail in E. destruct E as [-> ->]. auto.
  - clear IHl2. intros E. right. exists l2.
    change (l1 ++ e :: l2 ++ [y]) with (l1 ++ (e :: l2) ++ [y]) in E.
    rewrite app_assoc in E. apply app_inj_tail in E. destruct E as [-> ->]. auto.
Qed.

Lemma reachable_running_balance (s : Store) (l1 l2 : list BalanceLog.t)
    (e : BalanceLog.t) :
  reachable s ->
  balance_logs s = l1 ++ e :: l2 ->
  BalanceLog.new_balance e = running_total l1 e.
Proof.
  intros Hreach. revert l1 l2 e.
  apply (reachable_invariant
           (fun s => forall l1 l2 e, balance_logs s = l1 ++ e :: l2 ->
                                     BalanceLog.new_balance e = running_total l1 e));
    [| | |exact Hreach].
  - intros l1 l2 e E. destruct l1; discriminate.
  - intros data s0 _ IH _ _. exact IH.
  - intros data now s0 o Hok IH Hvalid Hnew Hone Hfit l1 l2 e E.
    unfold credited in E. cbn [balance_logs] in E.
    apply snoc_split in E. destruct E as [(-> & -> & ->)|(l2' & -> & E)].
    + destruct (filter_single_in _ _ _ Hone) as (Hin & _ & _).
      pose proof (ok_reconciled _ Hok) as Hrec. rewrite Forall_forall in Hrec.
      specialize (Hrec o Hin). unfold ledger_sum in Hrec.
      unfold running_total, new_log.
      cbn [BalanceLog.new_balance BalanceLog.organization].
      rewrite filter_app, map_app, sum_Z_app, Hrec.
      cbn [filter]. unfold log_of_org at 1. cbn [BalanceLog.organization].
      rewrite Z.eqb_refl. cbn. lia.
    + now apply (IH l1 l2').
Qed.


(* ===================================================================== *)
(** ** The stored rows pass the validators of the models *)

Lemma valid_payer_inn_clean (i : string) :
  valid_payer_inn i = true ->
  negb (String.eqb i "") = true
  /\ (String.length i <=? 12)%nat = true
  /\ (10 <=? String.length i)%nat = true.
Proof.
  unfold valid_payer_inn, isdigit. rewrite !andb_true_iff. tauto.
Qed.

Lemma new_payment_clean (data : Webhook.t) (now : Z) (o : Organization.t) (s : Store) :
  is_valid data = true -> Payment_clean_fields (new_payment data now o s) = true.
Proof.
  unfold is_valid, Payment_clean_fields, new_payment, valid_amount, valid_document_number.
  cbn [Payment.operation_id Payment.amount Payment.payer_inn Payment.document_number].
  rewrite !andb_true_iff. intros [[[Hop [Hfit Hpos]] Hinn] [Hdoc Hlen]].
  destruct (valid_payer_inn_clean _ Hinn) as (H1 & H2 & _). tauto.
Qed.

Lemma reachable_rows_clean (s : Store) :
  reachable s ->
  Forall (fun o => Organization_clean_fields o = true) (organizations s)
  /\ Forall (fun p => Payment_clean_fields p = true) (payments s).
Proof.
  apply (reachable_invariant
           (fun s => Forall (fun o => Organization_clean_fields o = true) (organizations s)
                     /\ Forall (fun p => Payment_clean_fields p = true) (payments s))).
  - split; constructor.
  - intros data s0 _ [IHo IHp] Hvalid _. split; [|exact IHp].
    unfold with_org. cbn [organizations]. apply Forall_app. split; [exact IHo|].
    constructor; [|constructor].
    unfold is_valid in Hvalid. rewrite !andb_true_iff in Hvalid.
    destruct Hvalid as [[_ Hinn] _].
    destruct (valid_payer_inn_clean _ Hinn) as (H1 & H2 & H3).
    unfold Organization_clean_fields, fresh_org.
    cbn [Organization.inn Organization.balance]. rewrite H1, H2, H3. reflexivity.
  - intros data now s0 o Hok [IHo IHp] Hvalid _ Hone Hfit.
    destruct (filter_single_in _ _ _ Hone) as (Hin & _ & _).
    split.
    + apply Forall_forall. intros r Hr.
      apply (credited_rows data now o s0 Hok Hone) in Hr.
      rewrite Forall_forall in IHo.
      destruct Hr as [->|[Hr _]]; [|now apply IHo].
      specialize (IHo o Hin). unfold Organization_clean_fields in *.
      unfold credited_org. cbn [Organization.inn Organization.balance].
      rewrite !andb_true_iff in *. destruct IHo as [[[[H1 H2] H3] _] Hpos].
      repeat split; auto. apply Z.leb_le. apply Z.leb_le in Hpos.
      pose proof (is_valid_amount _ Hvalid). lia.
    + unfold credited. cbn [payments]. apply Forall_app. split; [exact IHp|].
      constructor; [|constructor]. now apply new_payment_clean.
Qed.


(* ===================================================================== *)
(** ** The listing of one payer *)




Lemma list_payments_of (i : string) (ordering : list (bool * string)) (s : Store) :
  i <> ""%string ->
  Permutation (list_payments (payments_of i ordering) s) (filter (paid_by i) (payments s)).
Proof.
  intros Hi. unfold list_payments. rewrite order_by_perm.
  unfold matching_payments, get_queryset, payments_of. cbn [Query.payer_inn].
  replace (String.eqb i "") with false by (symmetry; now apply String.eqb_neq).
  rewrite forallb_filter_id; [reflexivity|]. now apply forallb_forall.
Qed.


(* ===================================================================== *)
(** ** The admin count and the listing *)

Lemma filter_length_mirror {A B C} (f : A -> C) (g : B -> C) (h : C -> bool)
    (l : list A) (l' : list B) :
  map f l = map g l' ->
  List.length (filter (fun x => h (f x)) l) = List.length (filter (fun y => h (g y)) l').
Proof.
  revert l'. induction l as [|x l IH]; intros [|y l'] E; try discriminate; [reflexivity|].
  cbn [map] in E. injection E as E1 E2. cbn [filter]. rewrite E1.
  destruct (h (g y)); cbn [List.length]; now rewrite (IH l' E2).
Qed.

Lemma paid_to_is_paid_by (s : Store) (o : Organization.t) (p : Payment.t) :
  store_ok s -> In o (organizations s) -> In p (payments s) ->
  paid_to o p = paid_by (Organization.inn o) p.
Proof.
  intros Hok Ho Hp.
  pose proof (ok_payment_org _ Hok) as H. rewrite Forall_forall in H.
  destruct (H p Hp) as (r & Hr & Horg & Hinn).
  unfold paid_to, paid_by. rewrite Horg, <- Hinn.
  destruct (Z.eqb_spec (Organization.id r) (Organization.id o)) as [E|E].
  - rewrite (NoDup_map_inj Organization.id _ r o (ok_org_ids _ Hok) Hr Ho E).
    symmetry. apply String.eqb_refl.
  - symmetry. apply String.eqb_neq. intros E'. apply E.
    now rewrite (NoDup_map_inj Organization.inn _ r o (ok_org_inns _ Hok) Hr Ho E').
Qed.

(** The payment count the admin shows for an organization is the number of
    payments the listing returns for its tax identifier, and the number of
    audit entries of the organization. *)
Theorem payments_count_is_listing_length (s : Store) (o : Organization.t)
    (ordering : list (bool * string)) :
  reachable s ->
  In o (organizations s) ->
  payments_count o s
  = List.length (list_payments (payments_of (Organization.inn o) ordering) s)
  /\ payments_count o s
     = List.length (filter (log_of_org (Organization.id o)) (balance_logs s)).
Proof.
  intros Hreach Ho. pose proof (reachable_ok _ Hreach) as Hok. split.
  - assert (Hinn : Organization.inn o <> ""%string).
    { destruct (reachable_rows_clean s Hreach) as [Hclean _].
      rewrite Forall_forall in Hclean. specialize (Hclean o Ho).
      unfold Organization_clean_fields in Hclean. rewrite !andb_true_iff in Hclean.
      destruct Hclean as [[[[H _] _] _] _]. apply negb_true_iff in H.
      now apply String.eqb_neq. }
    rewrite (Permutation_length (list_payments_of _ ordering s Hinn)).
    unfold payments_count. f_equal. apply filter_ext_in.
    intros p Hp. now apply (paid_to_is_paid_by s).
  - unfold payments_count. symmetry.
    apply (filter_length_mirror audit_of_log audit_of_payment
             (fun a => match snd (fst a) with
                       | Some k => k =? Organization.id o
                       | None => false
                       end)).
    now apply reachable_audit_mirror.
Qed.

Lemma payments_count_is_listing_length_witness :
  payments_count (Organization.mk 1 "1234567890" 14500250) two_payments = 2%nat.
Proof.
  rewrite (proj1 (payments_count_is_listing_length two_payments
                    (Organization.mk 1 "1234567890" 14500250) []
                    two_payments_reachable (or_introl eq_refl))).
  reflexivity.
Defined.

(** Round trip through the two views: once the webhook has answered 200 to
    a new operation identifier, the listing filtered by the payer, the
    document number and the document date of the event returns a payment
    with exactly the fields of the event, created at the time of the
    request. *)
Theorem processed_payment_is_listed (data : Webhook.t) (now : Z) (s : Store)
    (ordering : list (bool * string)) :
  reachable s ->
  already_processed (Webhook.operation_id data) s = false ->
  snd (post data now s) = ok_response ->
  In (PaymentData.mk (Webhook.operation_id data) (Webhook.amount data)
        (Webhook.payer_inn data) (Webhook.document_number data)
        (Webhook.document_date data) now)
     (payments_response
        (Query.mk (Some (Webhook.payer_inn data)) (Some (Webhook.document_number data))
           (Some (Webhook.document_date data)) ordering)
        (fst (post data now s))).
Proof.
  intros Hreach Hnew Hresp. pose proof (reachable_ok _ Hreach) as Hok.
  pose proof (post_outcome data now s Hok) as Hout.
  destruct Hout as [| | |s1 o Hvalid _ Hstart Hfit]; cbn [snd] in Hresp;
    try discriminate; try congruence.
  cbn [fst]. unfold payments_response.
  apply (in_map PaymentSerializer _ (new_payment data now o s1)).
  unfold list_payments.
  apply (Permutation_in _ (Permutation_sym (order_by_perm _ _))).
  unfold matching_payments. rewrite get_queryset_filter.
  apply filter_In. split; [apply filter_In; split|].
  - unfold credited. cbn [payments]. apply in_or_app. right. now left.
  - unfold payer_matches, new_payment. cbn [Query.payer_inn Payment.payer_inn].
    rewrite String.eqb_refl. apply orb_true_r.
  - unfold filterset, new_payment, opt_matches.
    cbn [Query.document_number Query.document_date Payment.document_number
         Payment.document_date].
    now rewrite String.eqb_refl, Z.eqb_refl, orb_true_r.
Qed.

Lemma processed_payment_is_listed_witness :
  In (PaymentData.mk 0x1111%N 250 "1234567890" "PAY-329" 1714338000 102)
     (payments_response
        (Query.mk (Some "1234567890"%string) (Some "PAY-329"%string) (Some 1714338000) [])
        two_payments).
Proof.
  exact (processed_payment_is_listed sample2 102 (fst (post sample 100 empty_store)) []
           (reachable_post sample 100 empty_store empty_store reachable_empty)
           eq_refl eq_refl).
Defined.

(** The latest audit entry of an organization records its current
    balance. *)
Theorem latest_entry_records_balance (s : Store) (l1 l2 : list BalanceLog.t)
    (e : BalanceLog.t) (o : Organization.t) :
  reachable s ->
  balance_logs s = l1 ++ e :: l2 ->
  (forall e', In e' l2 -> BalanceLog.organization e' <> BalanceLog.organization e) ->
  In o (organizations s) ->
  Organization.id o = BalanceLog.organization e ->
  BalanceLog.new_balance e = Organization.balance o.
Proof.
  intros Hreach Hlogs Hlast Ho Hid.
  rewrite (reachable_running_balance s l1 l2 e Hreach Hlogs).
  pose proof (ok_reconciled _ (reachable_ok _ Hreach)) as Hrec.
  rewrite Forall_forall in Hrec. rewrite <- (Hrec o Ho).
  unfold running_total, ledger_sum. rewrite Hlogs, Hid.
  change (l1 ++ e :: l2) with (l1 ++ [e] ++ l2). rewrite app_assoc.
  rewrite (filter_app _ (l1 ++ [e]) l2).
  replace (filter (log_of_org (BalanceLog.organization e)) l2) with (@nil BalanceLog.t).
  - now rewrite app_nil_r.
  - symmetry. apply filter_nil_existsb, existsb_false_forall. intros e' He'.
    unfold log_of_org. apply Z.eqb_neq. now apply Hlast.
Qed.

Lemma latest_entry_records_balance_witness :
  BalanceLog.new_balance (BalanceLog.mk 2 1 250 14500250 (Some 2) 102)
  = Organization.balance (Organization.mk 1 "1234567890" 14500250).
Proof.
  apply (latest_entry_records_balance two_payments
           [BalanceLog.mk 1 1 14500000 14500000 (Some 1) 100] []
           (BalanceLog.mk 2 1 250 14500250 (Some 2) 102)
           (Organization.mk 1 "1234567890" 14500250)
           two_payments_reachable eq_refl).
  - intros e' [].
  - now left.
  - reflexivity.
Defined.

(* ===================================================================== *)
(** ** The view on either database: how it relates to [post] *)

Lemma Organization_get_on_checked (i : string) (s : Store) :
  Organization_get_on true i s = Organization_get i s.
Proof.
  unfold Organization_get_on, Organization_get.
  destruct (filter (inn_is i) (organizations s)) as [|o [|o' l]]; reflexivity.
Qed.

Lemma get_or_create_on_checked (i : string) (b : Z) (s : Store) :
  Organization_get_or_create_on true s i b s = Organization_get_or_create i b s.
Proof.
  unfold Organization_get_or_create_on, Organization_get_or_create.
  rewrite Organization_get_on_checked. unfold Organization_get.
  destruct (filter (inn_is i) (organizations s)) as [|o [|o' l]]; reflexivity.
Qed.

Lemma credit_payment_on_checked (data : Webhook.t) (now : Z) (s : Store) :
  credit_payment_on true data now s s = credit_payment data now s.
Proof.
  unfold credit_payment_on, credit_payment, bind at 1 5.
  rewrite get_or_create_on_checked.
  destruct (Organization_get_or_create (Webhook.payer_inn data) 0 s) as [s1 [e|[o c]]];
    reflexivity.
Qed.

(** On a database that checks the digits, with the organization read from
    the store the writes meet, [post_on] is [post_interleaved]. *)
Lemma post_on_checked (data : Webhook.t) (now : Z) (checked_at s : Store) :
  post_on true data now checked_at s s = post_interleaved data now checked_at s.
Proof.
  unfold post_on, post_interleaved, process_on, process, atomic.
  now rewrite credit_payment_on_checked.
Qed.

(** The rest of the transaction once [get_or_create] has handed over the row
    [o]: it commits [credited], the balance of [o] plus the amount written
    over the row with the key of [o], or stops at [save] when the database
    checks the digits and the new balance has too many. *)
Lemma credit_on_from_org (checked : bool) (data : Webhook.t) (now : Z)
    (seen s s1 : Store) (o : Organization.t) (created : bool) :
  Organization_get_or_create_on checked seen (Webhook.payer_inn data) 0 s
  = (s1, inr (o, created)) ->
  is_valid data = true ->
  already_processed (Webhook.operation_id data) s1 = false ->
  existsb (same_org o) (organizations s1) = true ->
  (forall r, In r (organizations s1) ->
             Organization.inn r = Organization.inn o ->
             Organization.id r = Organization.id o) ->
  (negb checked || DecimalField.fits (Organization.balance o + Webhook.amount data) = true ->
   credit_payment_on checked data now seen s
   = (credited data now o s1, inr (Organization.balance o + Webhook.amount data)))
  /\ (negb checked || DecimalField.fits (Organization.balance o + Webhook.amount data) = false ->
      exists s', credit_payment_on checked data now seen s = (s', inl InvalidOperation)).
Proof.
  intros Hget Hvalid Hnew Hrow Huniq.
  pose proof (is_valid_amount _ Hvalid) as Hamount.
  assert (Hfit : DecimalField.fits (Webhook.amount data) = true)
    by (apply fits_iff; lia).
  unfold already_processed in Hnew.
  assert (Hinn : existsb (fun r => inn_is (Organization.inn o) r
                                   && negb (same_org
                                              (Organization.mk (Organization.id o)
                                                 (Organization.inn o)
                                                 (Organization.balance o + Webhook.amount data)) r))
                   (organizations s1) = false).
  { apply existsb_false_forall. intros r Hr.
    destruct (inn_is (Organization.inn o) r) eqn:E; [|reflexivity].
    apply inn_is_iff in E. unfold same_org. cbn.
    rewrite (Huniq r Hr E). now rewrite Z.eqb_refl. }
  split; intros Hbal; unfold credit_payment_on, bind at 1; rewrite Hget.
  - unfold bind, Payment_create. rewrite Hnew, Hfit. cbn [negb].
    unfold Organization_save_on. cbn [Organization.balance Organization.inn organizations].
    destruct checked; cbn [negb orb andb] in *.
    + rewrite Hbal. cbn [negb]. rewrite Hinn.
      change (same_org (Organization.mk (Organization.id o) (Organization.inn o)
                          (Organization.balance o + Webhook.amount data)))
        with (same_org o).
      rewrite Hrow. unfold BalanceLog_create_on. rewrite Hfit, Hbal. reflexivity.
    + rewrite Hinn.
      change (same_org (Organization.mk (Organization.id o) (Organization.inn o)
                          (Organization.balance o + Webhook.amount data)))
        with (same_org o).
      rewrite Hrow. reflexivity.
  - unfold bind, Payment_create. rewrite Hnew, Hfit. cbn [negb].
    unfold Organization_save_on. cbn [Organization.balance].
    destruct checked; cbn [negb orb andb] in *; [|discriminate].
    rewrite Hbal. cbn [negb]. eexists. reflexivity.
Qed.

Lemma get_or_create_on_found (checked : bool) (seen s : Store) (i : string)
    (o : Organization.t) :
  filter (inn_is i) (organizations seen) = [o] ->
  checked || DecimalField.fits (Organization.balance o) = true ->
  Organization_get_or_create_on checked seen i 0 s = (s, inr (o, false)).
Proof.
  intros Hone Hread. unfold Organization_get_or_create_on, Organization_get_on.
  rewrite Hone, Hread. reflexivity.
Qed.

Lemma get_or_create_on_new (checked : bool) (s : Store) (i : string) :
  filter (inn_is i) (organizations s) = [] ->
  Organization_get_or_create_on checked s i 0 s
  = (with_org (fresh_org i s) s, inr (fresh_org i s, true)).
Proof.
  intros H. unfold Organization_get_or_create_on, Organization_get_on.
  rewrite H. cbn [snd]. unfold catch_integrity, bind, atomic, Organization_create.
  apply filter_nil_existsb in H. rewrite H. reflexivity.
Qed.

(* ===================================================================== *)
(** ** Two transactions that read the same balance *)

(** C4, on the code: three payments of one payer are all answered 200, the
    second and the third having read the organization row before either
    wrote.  The third writes its stale balance plus 2.50 over the balance
    the second had committed: the organization ends with 145002.50 while
    the deltas of its audit entries add up to 145012.50.  The database may
    check the digits or not. *)
Theorem raced_payments_break_reconciliation (checked : bool) :
  snd (after_first checked) = ok_response
  /\ snd (after_second checked) = ok_response
  /\ snd (after_third checked) = ok_response
  /\ organizations (fst (after_third checked))
     = [Organization.mk 1 "1234567890" 14500250]
  /\ ledger_sum 1 (fst (after_third checked)) = 14501250.
Proof. destruct checked; repeat split; reflexivity. Qed.

(** C5, on the code: the three payments have distinct operation identifiers
    and name one organization that did not exist before them; all are
    answered 200 and leave three payment rows and three audit entries, but
    the balance the balance view reports, 145002.50, is not the sum of the
    three amounts, 145012.50: the credit of the second payment is lost. *)
Theorem raced_payments_lose_an_update (checked : bool) :
  NoDup (map Webhook.operation_id [sample; sample3; sample2])
  /\ map Webhook.payer_inn [sample; sample3; sample2]
     = ["1234567890"; "1234567890"; "1234567890"]%string
  /\ balance_get_on checked "1234567890" empty_store = BalanceNotFound
  /\ map snd [after_first checked; after_second checked; after_third checked]
     = [ok_response; ok_response; ok_response]
  /\ List.length (payments (fst (after_third checked))) = 3%nat
  /\ List.length (balance_logs (fst (after_third checked))) = 3%nat
  /\ balance_get_on checked "1234567890" (fst (after_third checked))
     = BalanceFound "1234567890" 14500250
  /\ sum_Z (map Webhook.amount [sample; sample3; sample2]) = 14501250.
Proof.
  split.
  - repeat constructor; cbn; intuition discriminate.
  - destruct checked; repeat split; reflexivity.
Qed.



(* ===================================================================== *)
(** ** The history only grows *)

Lemma get_or_create_on_tables (checked : bool) (seen s s1 : Store) (i : string) (b : Z)
    (r : Exception + Organization.t * bool) :
  Organization_get_or_create_on checked seen i b s = (s1, r) ->
  payments s1 = payments s /\ balance_logs s1 = balance_logs s.
Proof.
  unfold Organization_get_or_create_on.
  destruct (snd (Organization_get_on checked i seen)) as [[c| | |]|o];
    try (intros E; injection E as <- _; now split).
  unfold catch_integrity, bind, atomic, Organization_create.
  destruct (existsb (inn_is i) (organizations s)).
  - unfold Organization_get_on.
    destruct (filter (inn_is i) (organizations s)) as [|o [|o' l]];
      try (intros E; injection E as <- _; now split).
    destruct (checked || DecimalField.fits (Organization.balance o));
      intros E; injection E as <- _; now split.
  - destruct (negb (DecimalField.fits b)); intros E; injection E as <- _; now split.
Qed.

Lemma credit_on_appends (checked : bool) (data : Webhook.t) (now : Z) (seen s s' : Store)
    (b : Z) :
  credit_payment_on checked data now seen s = (s', inr b) ->
  exists p l, payments s' = payments s ++ [p] /\ balance_logs s' = balance_logs s ++ [l]
              /\ audit_of_log l = audit_of_payment p.
Proof.
  unfold credit_payment_on, bind at 1.
  destruct (Organization_get_or_create_on checked seen (Webhook.payer_inn data) 0 s)
    as [s1 [e|[o created]]] eqn:Hget; [discriminate|].
  destruct (get_or_create_on_tables _ _ _ _ _ _ _ Hget) as [Hp Hl].
  unfold bind at 1. unfold Payment_create.
  destruct (existsb (operation_is (Webhook.operation_id data)) (payments s1));
    [discriminate|].
  destruct (negb (DecimalField.fits (Webhook.amount data))); [discriminate|].
  unfold bind at 1. unfold Organization_save_on. cbn [organizations payments balance_logs].
  destruct (checked && negb _); [discriminate|].
  destruct (existsb _ (organizations s1)); [discriminate|].
  unfold bind, BalanceLog_create_on.
  destruct (existsb _ (organizations s1)); cbn [organizations payments balance_logs];
    (destruct (checked && negb _); [discriminate|]);
    intros E; injection E as <- _; cbn [payments balance_logs];
    rewrite Hp, Hl; do 2 eexists; repeat split; reflexivity.
Qed.

(** The history is append-only, on either database and however the
    transactions overlap: a request leaves the payments and the audit
    entries that were stored as they are, in place, and adds either nothing
    or one payment and one audit entry; it adds nothing unless it is
    answered 200. *)
Theorem post_on_only_appends (checked : bool) (data : Webhook.t) (now : Z)
    (checked_at seen s : Store) :
  exists (ps : list Payment.t) (ls : list BalanceLog.t),
    payments (fst (post_on checked data now checked_at seen s)) = payments s ++ ps
    /\ balance_logs (fst (post_on checked data now checked_at seen s))
       = balance_logs s ++ ls
    /\ List.length ps = List.length ls
    /\ (List.length ps <= 1)%nat
    /\ (ps <> [] -> snd (post_on checked data now checked_at seen s) = ok_response).
Proof.
  unfold post_on, process_on, atomic.
  destruct (negb (is_valid data)).
  { exists [], []. rewrite !app_nil_r. repeat split; auto. congruence. }
  destruct (already_processed _ checked_at).
  { exists [], []. rewrite !app_nil_r. repeat split; auto. }
  destruct (credit_payment_on checked data now seen s) as [s' [e|b]] eqn:Hrun.
  - exists [], []. rewrite !app_nil_r. repeat split; auto. congruence.
  - destruct (credit_on_appends _ _ _ _ _ _ _ Hrun) as (p & l & Hp & Hl & _).
    exists [p], [l]. cbn [fst snd]. repeat split; auto.
Qed.

(** The audit entries stay paired with the payments, on either database and
    however the transactions overlap: when every audit entry has its
    payment, with that payment's amount as delta and that payment's
    organization, and every payment its entry, the same holds after a
    request, and the two tables have as many rows.  The empty store starts
    that way. *)
Theorem post_on_keeps_audit_paired (checked : bool) (data : Webhook.t) (now : Z)
    (checked_at seen s : Store) :
  Permutation (map audit_of_log (balance_logs s)) (map audit_of_payment (payments s)) ->
  Permutation
    (map audit_of_log (balance_logs (fst (post_on checked data now checked_at seen s))))
    (map audit_of_payment (payments (fst (post_on checked data now checked_at seen s))))
  /\ List.length (balance_logs (fst (post_on checked data now checked_at seen s)))
     = List.length (payments (fst (post_on checked data now checked_at seen s))).
Proof.
  intros Hpaired.
  assert (Hlen : forall s', Permutation (map audit_of_log (balance_logs s'))
                              (map audit_of_payment (payments s')) ->
                            List.length (balance_logs s') = List.length (payments s')).
  { intros s' H. apply Permutation_length in H. now rewrite !length_map in H. }
  unfold post_on, process_on, atomic.
  destruct (negb (is_valid data)); [split; [exact Hpaired | now apply Hlen]|].
  destruct (already_processed _ checked_at); [split; [exact Hpaired | now apply Hlen]|].
  destruct (credit_payment_on checked data now seen s) as [s' [e|b]] eqn:Hrun;
    cbn [fst]; [split; [exact Hpaired | now apply Hlen]|].
  destruct (credit_on_appends _ _ _ _ _ _ _ Hrun) as (p & l & Hp & Hl & Hpl).
  assert (H' : Permutation (map audit_of_log (balance_logs s'))
                 (map audit_of_payment (payments s'))).
  { rewrite Hp, Hl, !map_app. cbn [map]. rewrite Hpl.
    now apply Permutation_app_tail. }
  split; [exact H' | now apply Hlen].
Qed.

Lemma post_on_keeps_audit_paired_witness :
  List.length (balance_logs (fst (after_third false)))
  = List.length (payments (fst (after_third false))).
Proof.
  exact (proj2 (post_on_keeps_audit_paired false sample2 102
                  (fst (after_first false)) (fst (after_first false))
                  (fst (after_second false)) (Permutation_refl _))).
Defined.

(* ===================================================================== *)
(** ** When a payment is accepted *)

(** A valid request with a new operation identifier, its transaction running
    alone on a store whose balances fit the column: it is answered 200 and
    the balance of the payer becomes the old balance plus the amount, unless
    the database checks the digits and the new balance has more than 15;
    then [save] raises, the answer is 500 and the store is as it was.  A
    database that does not check commits that balance too. *)
Theorem post_on_accepts (checked : bool) (data : Webhook.t) (now : Z) (s : Store) :
  reachable s ->
  is_valid data = true ->
  already_processed (Webhook.operation_id data) s = false ->
  (checked = true ->
   10 ^ 15 <= balance_of (Webhook.payer_inn data) s + Webhook.amount data ->
   post_on checked data now s s s
   = (s, mkResponse HTTP_500_INTERNAL_SERVER_ERROR (Some InvalidOperation)))
  /\ (checked = false
      \/ balance_of (Webhook.payer_inn data) s + Webhook.amount data < 10 ^ 15 ->
      snd (post_on checked data now s s s) = ok_response
      /\ exists o, In o (organizations (fst (post_on checked data now s s s)))
                   /\ Organization.inn o = Webhook.payer_inn data
                   /\ Organization.balance o
                      = balance_of (Webhook.payer_inn data) s + Webhook.amount data).
Proof.
  intros Hreach Hvalid Hnew. pose proof (reachable_ok _ Hreach) as Hok.
  pose proof (is_valid_amount _ Hvalid) as Hamount.
  unfold post_on, process_on, atomic. rewrite Hvalid, Hnew. cbn [negb].
  destruct (organizations_by_inn (Webhook.payer_inn data) s Hok) as [Hnone|[o Hone]].
  - assert (Hb : balance_of (Webhook.payer_inn data) s = 0).
    { unfold balance_of, balance_get, Organization_get. now rewrite Hnone. }
    rewrite Hb.
    destruct (credit_on_from_org checked data now s s _ _ _
                (get_or_create_on_new checked s _ Hnone) Hvalid) as [Hcommit _].
    + exact Hnew.
    + unfold with_org. cbn [organizations]. rewrite existsb_app. cbn.
      unfold same_org. rewrite Z.eqb_refl. apply orb_true_iff. right. reflexivity.
    + unfold with_org. cbn [organizations]. intros r Hr Hinn.
      apply in_app_or in Hr. destruct Hr as [Hr|[<-|[]]]; [|reflexivity].
      exfalso. apply filter_nil_existsb in Hnone.
      rewrite existsb_false_forall in Hnone. specialize (Hnone r Hr).
      apply inn_is_iff in Hinn. unfold fresh_org in Hinn. cbn in Hinn. congruence.
    + rewrite Hcommit.
      2:{ apply orb_true_iff. right. apply fits_iff. unfold fresh_org. cbn. lia. }
      split; [intros _ H; lia|]. intros _. cbn [fst snd]. split; [reflexivity|].
      eexists. rewrite credited_fresh_organizations. split.
      * apply in_or_app. right. now left.
      * cbn. split; [reflexivity | lia].
  - destruct (filter_single_in _ _ _ Hone) as (Hin & Hinn & Huniq).
    apply inn_is_iff in Hinn.
    assert (Hb : balance_of (Webhook.payer_inn data) s = Organization.balance o).
    { unfold balance_of, balance_get, Organization_get. now rewrite Hone. }
    rewrite Hb.
    pose proof (ok_balances _ Hok) as Hbal. rewrite Forall_forall in Hbal.
    specialize (Hbal o Hin).
    assert (Hread : checked || DecimalField.fits (Organization.balance o) = true).
    { apply orb_true_iff. right. apply fits_iff. lia. }
    destruct (credit_on_from_org checked data now s s _ _ _
                (get_or_create_on_found checked s s _ o Hone Hread) Hvalid Hnew)
      as [Hcommit Hstop].
    + apply existsb_exists. exists o. split; [exact Hin|]. unfold same_org. apply Z.eqb_refl.
    + intros r Hr E. f_equal. apply Huniq; [exact Hr|]. apply inn_is_iff. congruence.
    + split.
      * intros -> Hover. destruct Hstop as [s' ->]; [|reflexivity].
        cbn [negb orb]. apply not_true_is_false. intros H. apply fits_iff in H. lia.
      * intros Hcase. rewrite Hcommit.
        2:{ destruct Hcase as [->|Hlt]; [reflexivity|].
            apply orb_true_iff. right. apply fits_iff. lia. }
        cbn [fst snd]. split; [reflexivity|].
        exists (credited_org data o). split; [|split; [exact Hinn | reflexivity]].
        apply (credited_rows data now o s Hok Hone). now left.
Qed.

Lemma post_on_accepts_witness :
  post_on true sample_too_large 104 (fst (post sample 100 empty_store))
    (fst (post sample 100 empty_store)) (fst (post sample 100 empty_store))
  = (fst (post sample 100 empty_store),
     mkResponse HTTP_500_INTERNAL_SERVER_ERROR (Some InvalidOperation))
  /\ snd (post_on false sample_too_large 104 (fst (post sample 100 empty_store))
            (fst (post sample 100 empty_store)) (fst (post sample 100 empty_store)))
     = ok_response.
Proof.
  split.
  - apply (post_on_accepts true sample_too_large 104 (fst (post sample 100 empty_store))
             (reachable_post sample 100 empty_store empty_store reachable_empty)
             eq_refl eq_refl); [reflexivity | discriminate].
  - apply (post_on_accepts false sample_too_large 104 (fst (post sample 100 empty_store))
             (reachable_post sample 100 empty_store empty_store reachable_empty)
             eq_refl eq_refl). now left.
Defined.

(** An amount below zero or of more than 15 digits is refused by the
    serializer: the answer is 400 and nothing is read or written. *)
Theorem post_on_refuses_amount (checked : bool) (data : Webhook.t) (now : Z)
    (checked_at seen s : Store) :
  Webhook.amount data < 0 \/ 10 ^ 15 <= Webhook.amount data ->
  post_on checked data now checked_at seen s
  = (s, mkResponse HTTP_400_BAD_REQUEST None)
  /\ post_interleaved data now checked_at s
     = (s, mkResponse HTTP_400_BAD_REQUEST None).
Proof.
  intros Hout.
  assert (Hbad : is_valid data = false).
  { apply not_true_is_false. intros H. apply is_valid_amount in H. lia. }
  unfold post_on, post_interleaved. rewrite Hbad. split; reflexivity.
Qed.

Lemma post_on_refuses_amount_witness :
  post (Webhook.mk 0x5555%N (-1) "1234567890" "PAY-333" 1714338004) 106 two_payments
  = (two_payments, mkResponse HTTP_400_BAD_REQUEST None).
Proof.
  apply (post_on_refuses_amount true
           (Webhook.mk 0x5555%N (-1) "1234567890" "PAY-333" 1714338004) 106
           two_payments two_payments two_payments).
  left. reflexivity.
Defined.

(* ===================================================================== *)
(** ** The balance view on either database *)

(** As long as no two organizations share a tax identifier, which the unique
    constraint on [inn] sees to, the balance view answers 404 exactly when
    no organization has the identifier asked for; when one has, it answers
    200 with that identifier and the balance of that organization, except
    on a database that does not check the digits when the stored balance
    has more than 15: reading that row raises and the view fails. *)
Theorem balance_view_outcomes (checked : bool) (i : string) (s : Store) :
  NoDup (map Organization.inn (organizations s)) ->
  (balance_get_on checked i s = BalanceNotFound
   <-> forall o, In o (organizations s) -> Organization.inn o <> i)
  /\ (forall o, In o (organizations s) -> Organization.inn o = i ->
        balance_get_on checked i s
        = if checked || DecimalField.fits (Organization.balance o)
          then BalanceFound i (Organization.balance o)
          else BalanceFailed InvalidOperation).
Proof.
  intros Hnd.
  assert (Hcases : filter (inn_is i) (organizations s) = []
                   \/ exists o, filter (inn_is i) (organizations s) = [o]).
  { apply (filter_unique_key Organization.inn _ i); [apply inn_is_iff | exact Hnd]. }
  unfold balance_get_on, Organization_get_on.
  destruct Hcases as [E|[o E]]; rewrite E.
  - apply filter_nil_existsb in E. rewrite existsb_false_forall in E. split.
    + split; [|reflexivity]. intros _ o Ho Hinn.
      specialize (E o Ho). apply inn_is_iff in Hinn. congruence.
    + intros o Ho Hinn. specialize (E o Ho). apply inn_is_iff in Hinn. congruence.
  - destruct (filter_single_in _ _ _ E) as (Hin & Hinn & Huniq).
    apply inn_is_iff in Hinn. split.
    + split.
      * destruct (checked || DecimalField.fits (Organization.balance o)); discriminate.
      * intros H. now destruct (H o Hin).
    + intros r Hr Hr_inn. rewrite (Huniq r Hr ((proj2 (inn_is_iff _ _)) Hr_inn)).
      destruct (checked || DecimalField.fits (Organization.balance o));
        [now rewrite Hinn | reflexivity].
Qed.

Lemma balance_view_outcomes_witness :
  balance_get_on false "1234567890"
    (fst (post_on false sample_too_large 104 (fst (post sample 100 empty_store))
            (fst (post sample 100 empty_store)) (fst (post sample 100 empty_store))))
  = BalanceFailed InvalidOperation.
Proof.
  exact (proj2 (balance_view_outcomes false "1234567890"
                  (fst (post_on false sample_too_large 104 (fst (post sample 100 empty_store))
                          (fst (post sample 100 empty_store))
                          (fst (post sample 100 empty_store))))
                  (@NoDup_cons string "1234567890"%string [] (fun H => H) (NoDup_nil string)))
               (Organization.mk 1 "1234567890" (14500000 + (10 ^ 15 - 1)))
               (or_introl eq_refl) eq_refl).
Defined.

(* ===================================================================== *)
(** ** The listing against the payments table *)

Lemma filter_twice {A} (f g : A -> bool) (l : list A) :
  filter f (filter g l) = filter (fun x => g x && f x) l.
Proof.
  induction l as [|x l IH]; cbn [filter]; [reflexivity|].
  destruct (g x); cbn [andb filter]; [destruct (f x)|]; now rewrite IH.
Qed.

Lemma text_parameter_wanted (v : option string) (x : string) :
  match v with
  | Some w => String.eqb w "" || String.eqb x w
  | None => true
  end = true
  <-> forall w, v = Some w -> w <> ""%string -> x = w.
Proof.
  destruct v as [w|]; [|split; [intros _ w E; discriminate | reflexivity]].
  rewrite orb_true_iff, !String.eqb_eq. split.
  - intros [H|H] w' E Hw; injection E as <-; [contradiction | exact H].
  - intros H. destruct (String.eqb_spec w ""); [now left | right; now apply H].
Qed.

Lemma wanted_iff (q : Query.t) (p : Payment.t) :
  payer_matches (cleaned q) p && filterset (cleaned q) p = true <-> wanted q p.
Proof.
  unfold payer_matches, filterset, wanted, cleaned, opt_matches.
  cbn [Query.payer_inn Query.document_number Query.document_date].
  rewrite !andb_true_iff, !text_parameter_wanted.
  assert (Hdate : match Query.document_date q with
                  | Some w => Payment.document_date p =? w
                  | None => true
                  end = true
                  <-> forall t, Query.document_date q = Some t -> Payment.document_date p = t).
  { destruct (Query.document_date q) as [w|].
    - rewrite Z.eqb_eq. split; [intros H t E; injection E as <-; exact H | auto].
    - split; [intros _ t E; discriminate | reflexivity]. }
  rewrite Hdate.
  assert (Hdoc : (forall w, option_map strip (Query.document_number q) = Some w ->
                            w <> ""%string -> Payment.document_number p = w)
                 <-> forall d, Query.document_number q = Some d -> strip d <> ""%string ->
                               Payment.document_number p = strip d).
  { destruct (Query.document_number q) as [d|]; cbn [option_map].
    - split.
      + intros H d' E. injection E as <-. now apply H.
      + intros H w E. injection E as <-. now apply H.
    - split; intros _ w E; discriminate. }
  rewrite Hdoc. tauto.
Qed.

(** Whether a payment is wanted can be tested. *)
Lemma wanted_has_test (q : Query.t) :
  exists keep : Payment.t -> bool, forall p, keep p = true <-> wanted q p.
Proof.
  exists (fun p => payer_matches (cleaned q) p && filterset (cleaned q) p).
  intros p. apply wanted_iff.
Qed.

Example strip_spaces : strip " D-2 " = "D-2"%string.
Proof. reflexivity. Qed.

Example strip_blank : strip "   " = ""%string.
Proof. reflexivity. Qed.

Example strip_inner_space_kept :
  strip (String (ascii_of_nat 9) (String (ascii_of_nat 160) "PAY 1"))
  = "PAY 1"%string.
Proof. reflexivity. Qed.

(** The listing is the rows of the payments table that the request asks
    for, each as often as it is stored, in some order. *)
Lemma payments_view_perm (q : Query.t) (s : Store) (keep : Payment.t -> bool) :
  (forall p, keep p = true <-> wanted q p) ->
  Permutation (payments_view q s) (filter keep (payments s)).
Proof.
  intros Hkeep. unfold payments_view, list_payments. rewrite order_by_perm.
  unfold matching_payments. rewrite get_queryset_filter, filter_twice.
  rewrite (filter_ext keep (fun x => payer_matches (cleaned q) x && filterset (cleaned q) x));
    [reflexivity|].
  intros p. apply eq_true_iff_eq. rewrite Hkeep. symmetry. apply wanted_iff.
Qed.

Lemma payments_view_ordering (q : Query.t) (s : Store) :
  payments_view q s
  = order_by (get_ordering q) (matching_payments (cleaned q) s).
Proof. reflexivity. Qed.

(** C8: with no ordering in the request, the listing is made of exactly the
    stored payments the request asks for (the payer, the document number
    and the document date that are given), each once per stored row, and
    every row has a document date at least that of every row after it:
    the newest document date comes first. *)
Theorem payments_view_default_newest_first (q : Query.t) (s : Store) :
  Query.ordering q = [] ->
  (forall keep : Payment.t -> bool,
      (forall p, keep p = true <-> wanted q p) ->
      Permutation (payments_view q s) (filter keep (payments s)))
  /\ StronglySorted newest_first (payments_view q s).
Proof.
  intros Hnone. split; [intros keep; apply payments_view_perm|].
  rewrite payments_view_ordering. unfold get_ordering. rewrite Hnone. cbn [filter].
  apply Sorted_StronglySorted; [exact newest_first_trans | apply order_by_default_sorted].
Qed.

Lemma payments_view_default_newest_first_witness :
  Permutation
    (payments_view (Query.mk (Some "1234567890"%string) (Some " PAY-329 "%string) None [])
       (fst (after_third true)))
    [Payment.mk 3 0x1111%N 250 "1234567890" "PAY-329" 1714338000 102 (Some 1)]
  /\ map Payment.document_date
       (payments_view (Query.mk (Some "1234567890"%string) None None [])
          (fst (after_third true)))
     = [1714338003; 1714338000; 1714251600].
Proof.
  split; [|reflexivity].
  apply (proj1 (payments_view_default_newest_first
                  (Query.mk (Some "1234567890"%string) (Some " PAY-329 "%string) None [])
                  (fst (after_third true)) eq_refl)
           (fun p => String.eqb (Payment.payer_inn p) "1234567890"
                     && String.eqb (Payment.document_number p) "PAY-329")).
  intros p. rewrite andb_true_iff, !String.eqb_eq. unfold wanted.
  cbn [Query.payer_inn Query.document_number Query.document_date]. split.
  - intros [H1 H2]. repeat split.
    + intros i E _. injection E as <-. exact H1.
    + intros d E _. injection E as <-. exact H2.
    + intros t E. discriminate.
  - intros (H1 & H2 & _). split.
    + apply (H1 _ eq_refl). discriminate.
    + apply (H2 _ eq_refl). discriminate.
Defined.

(** Whatever ordering is asked for, the listing is made of exactly the
    stored payments the request asks for, each once per stored row: no
    other row is listed, none is left out and none is repeated. *)
Theorem payments_view_exactly_wanted (q : Query.t) (s : Store) (keep : Payment.t -> bool) :
  (forall p, keep p = true <-> wanted q p) ->
  Permutation (payments_view q s) (filter keep (payments s))
  /\ forall p, In p (payments_view q s) <-> In p (payments s) /\ wanted q p.
Proof.
  intros Hkeep. pose proof (payments_view_perm q s keep Hkeep) as Hperm.
  split; [exact Hperm|]. intros p. rewrite <- Hkeep, <- filter_In. split.
  - apply Permutation_in. exact Hperm.
  - apply Permutation_in. now apply Permutation_sym.
Qed.

Lemma payments_view_exactly_wanted_witness :
  Permutation
    (payments_view (Query.mk None None (Some 1714338000) [(false, "amount"%string)])
       two_payments)
    [Payment.mk 2 0x1111%N 250 "1234567890" "PAY-329" 1714338000 102 (Some 1)].
Proof.
  refine (proj1 (payments_view_exactly_wanted
                   (Query.mk None None (Some 1714338000) [(false, "amount"%string)])
                   two_payments
                   (fun p => Payment.document_date p =? 1714338000) _)).
  intros p. rewrite Z.eqb_eq. unfold wanted.
  cbn [Query.payer_inn Query.document_number Query.document_date]. split.
  - intros H. repeat split.
    + intros i E. discriminate.
    + intros d E. discriminate.
    + intros t E. injection E as <-. exact H.
  - intros (_ & _ & H). now apply H.
Defined.

(* ===================================================================== *)
(** ** The stored rows against the validators of the models *)

(** [create] and [save] never call [full_clean], yet the stored rows pass
    what the fields declare: every organization has a tax identifier of 10
    to 12 characters and a balance that is not negative, and every payment
    passes all the validators of its fields.  The serializer of the webhook
    is at least as strict on the fields of the event, and the balance only
    grows from 0 by amounts that are not negative. *)
Theorem stored_rows_pass_validators (s : Store) :
  reachable s ->
  (forall o, In o (organizations s) ->
             (10 <= String.length (Organization.inn o) <= 12)%nat
             /\ 0 <= Organization.balance o)
  /\ (forall p, In p (payments s) -> Payment_clean_fields p = true).
Proof.
  intros Hreach. destruct (reachable_rows_clean s Hreach) as [Ho Hp].
  rewrite Forall_forall in Ho, Hp. split; [|exact Hp].
  intros o Hin. specialize (Ho o Hin). unfold Organization_clean_fields in Ho.
  rewrite !andb_true_iff, !Nat.leb_le, Z.leb_le in Ho. lia.
Qed.

Lemma stored_rows_pass_validators_witness :
  Payment_clean_fields
    (Payment.mk 2 0x1111%N 250 "1234567890" "PAY-329" 1714338000 102 (Some 1)) = true
  /\ 0 <= Organization.balance (Organization.mk 1 "1234567890" 14500250).
Proof.
  destruct (stored_rows_pass_validators two_payments two_payments_reachable) as [Ho Hp].
  split; [apply Hp; right; now left | apply (Ho _ (or_introl eq_refl))].
Defined.
